(** * Student expense tracker: a shallow embedding of [ExpenseScreen.js]

    The component keeps its records in one SQLite table, reloads the whole
    table after every mutation and derives the filtered list, the overall
    total and the per-category totals from the loaded rows.

    The development follows the source top-down:
    - [JS]: the ECMAScript operations the handlers call ([parseFloat],
      [Number], [String.prototype.trim], truthiness), on IEEE-754 doubles;
    - [JSDate]: time values, local time, [Date.parse] of date-only strings,
      [toISOString], [setHours], [setDate];
    - [Store]: the [expenses] table and the SQL statements run on it;
    - [Screen]: the component state, its handlers and the user's events;
    - [Engine]: [filteredExpenses], [overallTotal], [categoryTotals];
    - [Spec] and [Samples]: the specification's vocabulary, sample data;
    - [FloatFacts], [DateFacts], [StoreFacts], [ScreenFacts], [FilterFacts]:
      lemmas about doubles, the calendar, the table, the handlers and the
      filters;
    - [HandlerProps], [EngineProps], [Scenarios]: the properties. *)

From Stdlib Require Import ZArith String Ascii List Floats Uint63 Lia.
From stdpp Require Import gmap strings list sorting.

Local Open Scope Z_scope.

(* ===================================================================== *)
(** * ECMAScript numbers and strings *)
(* ===================================================================== *)

Module JS.

(** A JS number is a binary64 value: Rocq's primitive [float]. *)
Definition number := float.

Definition NaN : number := PrimFloat.nan.
Definition Infinity : number := PrimFloat.infinity.
Definition zero : number := PrimFloat.zero.

(** [isNaN(x)] on a number. *)
Definition isNaN (x : number) : bool := PrimFloat.is_nan x.

(** [ToBoolean] on a number: [NaN], [+0] and [-0] are falsy. *)
Definition truthy (x : number) : bool :=
  negb (PrimFloat.is_nan x || PrimFloat.is_zero x).

(** [x || 0] on a number. *)
Definition or_zero (x : number) : number := if truthy x then x else zero.

(** [x <= 0] and [x > 0]; both are [false] on [NaN]. *)
Definition le_zero (x : number) : bool := PrimFloat.leb x zero.
Definition gt_zero (x : number) : bool := PrimFloat.ltb zero x.

(** [SameValueZero(x, y)]: equal as numbers, [NaN] equal to itself and
    [+0] equal to [-0]. *)
Definition SameValueZero (x y : number) : Prop :=
  x = y \/ (PrimFloat.is_zero x = true /\ PrimFloat.is_zero y = true).

(** ** Strings

    A JS string is a sequence of UTF-16 code units.  The embedding covers
    the strings whose code units are below 256, one [ascii] per code unit. *)

(** [WhiteSpace] and [LineTerminator] code units below 256: TAB, LF, VT, FF,
    CR, SP and NBSP. *)
Definition is_ws (a : ascii) : bool :=
  let n := Z.of_N (N_of_ascii a) in
  (9 <=? n) && (n <=? 13) || (n =? 32) || (n =? 160).

Fixpoint trimStart_list (l : list ascii) : list ascii :=
  match l with
  | a :: l' => if is_ws a then trimStart_list l' else l
  | [] => []
  end.

Definition trim_list (l : list ascii) : list ascii :=
  rev (trimStart_list (rev (trimStart_list l))).

(** [s.trim()] *)
Definition trim (s : string) : string :=
  string_of_list_ascii (trim_list (list_ascii_of_string s)).

(** [ToBoolean] on a string: only the empty string is falsy. *)
Definition str_truthy (s : string) : bool :=
  match s with EmptyString => false | _ => true end.

(** ** Decimal literals *)

Definition digit_of (a : ascii) : option Z :=
  let n := Z.of_N (N_of_ascii a) in
  if (48 <=? n) && (n <=? 57) then Some (n - 48) else None.

(** Reads the longest run of decimal digits: its value on top of [acc], the
    number of digits read, and the rest. *)
Fixpoint scan_digits (l : list ascii) (acc : Z) (cnt : Z)
  : Z * Z * list ascii :=
  match l with
  | a :: l' =>
      match digit_of a with
      | Some d => scan_digits l' (10 * acc + d) (cnt + 1)
      | None => (acc, cnt, l)
      end
  | [] => (acc, cnt, [])
  end.

(** The double nearest to the positive rational [n / d], ties to even: the
    rounding by which the language turns a mathematical value into a
    number.  The result is the infinity once the rounded value reaches
    [2 ^ 1024], and a subnormal or a zero below [2 ^ -1022]. *)
Definition round_ratio (neg : bool) (n d : Z) : number :=
  let k0 := Z.log2 n - Z.log2 d in
  let k := if n * 2 ^ Z.max (- k0) 0 <? d * 2 ^ Z.max k0 0 then k0 - 1 else k0 in
  let q := Z.max (k - 52) (-1074) in
  let num := n * 2 ^ Z.max (- q) 0 in
  let den := d * 2 ^ Z.max q 0 in
  let m := num / den in
  let r := num mod den in
  let m' :=
    match 2 * r ?= den with
    | Lt => m
    | Gt => m + 1
    | Eq => if Z.even m then m else m + 1
    end in
  if (971 <? q) || ((q =? 971) && (2 ^ 53 <=? m')) then
    (if neg then PrimFloat.neg_infinity else PrimFloat.infinity)
  else
    match m' with
    | Zpos p => SF2Prim (S754_finite neg p q)
    | _ => SF2Prim (S754_zero neg)
    end.

(** The number denoted by the digits [m] scaled by [10 ^ e10]. *)
Definition decimal_value (neg : bool) (m e10 : Z) : number :=
  if m =? 0 then SF2Prim (S754_zero neg)
  else if 0 <=? e10 then round_ratio neg (m * 10 ^ e10) 1
  else round_ratio neg m (10 ^ (- e10)).

Definition starts_with (p : string) (l : list ascii) : option (list ascii) :=
  let pl := list_ascii_of_string p in
  if decide (take (length pl) l = pl) then Some (drop (length pl) l) else None.

(** [ExponentPart], when one starts at [l]: the exponent and the rest.
    An [e] that no digit follows is not part of the literal. *)
Definition scan_exponent (l : list ascii) : Z * list ascii :=
  match l with
  | a :: l1 =>
      if decide (a = "e"%char \/ a = "E"%char) then
        let '(sgn, l2) :=
          match l1 with
          | b :: l2 =>
              if decide (b = "-"%char) then (-1, l2)
              else if decide (b = "+"%char) then (1, l2)
              else (1, l1)
          | [] => (1, l1)
          end in
        let '(v, cnt, l3) := scan_digits l2 0 0 in
        if cnt =? 0 then (0, l) else (sgn * v, l3)
      else (0, l)
  | [] => (0, l)
  end.

(** The longest prefix of [l] that is a [StrUnsignedDecimalLiteral]: its
    value with sign [neg], and the rest. *)
Definition scan_unsigned_decimal (neg : bool) (l : list ascii)
  : option (number * list ascii) :=
  match starts_with "Infinity" l with
  | Some rest =>
      Some (if neg then PrimFloat.neg_infinity else PrimFloat.infinity, rest)
  | None =>
      let '(ip, ni, l1) := scan_digits l 0 0 in
      match l1 with
      | "."%char :: l2 =>
          let '(m, nf, l3) := scan_digits l2 ip 0 in
          if (ni =? 0) && (nf =? 0) then None
          else
            let '(e, l4) := scan_exponent l3 in
            Some (decimal_value neg m (e - nf), l4)
      | _ =>
          if ni =? 0 then None
          else
            let '(e, l4) := scan_exponent l1 in
            Some (decimal_value neg ip e, l4)
      end
  end.

(** The longest prefix of [l] that is a [StrDecimalLiteral]. *)
Definition scan_decimal (l : list ascii) : option (number * list ascii) :=
  match l with
  | "-"%char :: l' => scan_unsigned_decimal true l'
  | "+"%char :: l' => scan_unsigned_decimal false l'
  | _ => scan_unsigned_decimal false l
  end.

(** [parseFloat(s)]: leading white space is skipped, the longest prefix that
    is a decimal literal is converted, anything after it is ignored. *)
Definition parseFloat (s : string) : number :=
  match scan_decimal (trimStart_list (list_ascii_of_string s)) with
  | Some (v, _) => v
  | None => NaN
  end.

(** Digits of a [NonDecimalIntegerLiteral] in base [b]. *)
Definition digit_in_base (b : Z) (a : ascii) : option Z :=
  let n := Z.of_N (N_of_ascii a) in
  let v :=
    if (48 <=? n) && (n <=? 57) then n - 48
    else if (97 <=? n) && (n <=? 102) then n - 87
    else if (65 <=? n) && (n <=? 70) then n - 55
    else 99 in
  if v <? b then Some v else None.

Fixpoint scan_base (b : Z) (l : list ascii) (acc : Z) : option Z :=
  match l with
  | a :: l' =>
      match digit_in_base b a with
      | Some d => scan_base b l' (b * acc + d)
      | None => None
      end
  | [] => Some acc
  end.

Definition non_decimal (l : list ascii) : option number :=
  match l with
  | "0"%char :: p :: (_ :: _) as ds =>
      let base :=
        if decide (p = "x"%char \/ p = "X"%char) then Some 16
        else if decide (p = "o"%char \/ p = "O"%char) then Some 8
        else if decide (p = "b"%char \/ p = "B"%char) then Some 2
        else None in
      match base with
      | Some b =>
          match scan_base b ds 0 with
          | Some v => Some (decimal_value false v 0)
          | None => None
          end
      | None => None
      end
  | _ => None
  end.

(** [StringToNumber]: the whole trimmed text has to be a numeric literal;
    the empty text is [+0]. *)
Definition StringToNumber (s : string) : number :=
  let l := trim_list (list_ascii_of_string s) in
  match l with
  | [] => zero
  | _ =>
      match non_decimal l with
      | Some v => v
      | None =>
          match scan_decimal l with
          | Some (v, []) => v
          | _ => NaN
          end
      end
  end.

(** The values a column of the table holds once read into a row object:
    [null], a number or a string. *)
Inductive value : Type :=
| VNull
| VNum (x : number)
| VStr (s : string).

(** [Number(v)] *)
Definition ToNumber (v : value) : number :=
  match v with
  | VNull => zero
  | VNum x => x
  | VStr s => StringToNumber s
  end.

End JS.

(* ===================================================================== *)
(** * ECMAScript dates *)
(* ===================================================================== *)

Module JSDate.

(** A time value is a number of milliseconds since the epoch, in UTC; every
    time value is an integer, so [Z] represents it exactly.  A [Date] object
    holds a time value or [NaN] (an invalid date), here [None]. *)
Definition Date := option Z.

Definition msPerDay : Z := 86400000.

Definition Day (t : Z) : Z := t / msPerDay.
Definition TimeWithinDay (t : Z) : Z := t mod msPerDay.

Definition DayFromYear (y : Z) : Z :=
  365 * (y - 1970) + (y - 1969) / 4 - (y - 1901) / 100 + (y - 1601) / 400.

Definition leap (y : Z) : bool :=
  ((y mod 4 =? 0) && negb (y mod 100 =? 0)) || (y mod 400 =? 0).

(** The largest year whose first day is not after day [d]: an estimate from
    the mean length of a year, corrected by one where needed. *)
Definition YearFromDay (d : Z) : Z :=
  let y := 1970 + d * 400 / 146097 in
  if d <? DayFromYear y then y - 1
  else if DayFromYear (y + 1) <=? d then y + 1
  else y.

Definition YearFromTime (t : Z) : Z := YearFromDay (Day t).
Definition InLeapYear (t : Z) : bool := leap (YearFromTime t).
Definition DayWithinYear (t : Z) : Z := Day t - DayFromYear (YearFromTime t).

(** Days of the year before month [m] (0 is January). *)
Definition DaysBeforeMonth (lp : bool) (m : Z) : Z :=
  let l := if lp then 1 else 0 in
  match m with
  | 0 => 0
  | 1 => 31
  | 2 => 59 + l
  | 3 => 90 + l
  | 4 => 120 + l
  | 5 => 151 + l
  | 6 => 181 + l
  | 7 => 212 + l
  | 8 => 243 + l
  | 9 => 273 + l
  | 10 => 304 + l
  | 11 => 334 + l
  | _ => 365 + l
  end.

Definition MonthFromTime (t : Z) : Z :=
  let d := DayWithinYear t in
  let lp := InLeapYear t in
  if d <? DaysBeforeMonth lp 1 then 0
  else if d <? DaysBeforeMonth lp 2 then 1
  else if d <? DaysBeforeMonth lp 3 then 2
  else if d <? DaysBeforeMonth lp 4 then 3
  else if d <? DaysBeforeMonth lp 5 then 4
  else if d <? DaysBeforeMonth lp 6 then 5
  else if d <? DaysBeforeMonth lp 7 then 6
  else if d <? DaysBeforeMonth lp 8 then 7
  else if d <? DaysBeforeMonth lp 9 then 8
  else if d <? DaysBeforeMonth lp 10 then 9
  else if d <? DaysBeforeMonth lp 11 then 10
  else 11.

Definition DateFromTime (t : Z) : Z :=
  DayWithinYear t - DaysBeforeMonth (InLeapYear t) (MonthFromTime t) + 1.

(** 0 is Sunday; the epoch was a Thursday. *)
Definition WeekDay (t : Z) : Z := (Day t + 4) mod 7.

Definition HourFromTime (t : Z) : Z := (t / 3600000) mod 24.
Definition MinFromTime (t : Z) : Z := (t / 60000) mod 60.
Definition SecFromTime (t : Z) : Z := (t / 1000) mod 60.
Definition msFromTime (t : Z) : Z := t mod 1000.

Definition MakeTime (h m s ms : Z) : Z := h * 3600000 + m * 60000 + s * 1000 + ms.

Definition MakeDay (year month date : Z) : Z :=
  let ym := year + month / 12 in
  let mn := month mod 12 in
  DayFromYear ym + DaysBeforeMonth (leap ym) mn + date - 1.

Definition MakeDate (day time : Z) : Z := day * msPerDay + time.

(** The largest time value: 100,000,000 days from the epoch. *)
Definition maxTime : Z := 8640000000000000.

Definition TimeClip (t : Z) : Date :=
  if Z.abs t <=? maxTime then Some t else None.

(** ** Local time

    [tza] is the offset of local time from UTC in milliseconds.  The
    embedding covers the zones whose offset is constant (no daylight saving
    transitions), so [LocalTZA] does not depend on the time value. *)
Section LocalTime.

Variable tza : Z.

Definition LocalTime (t : Z) : Z := t + tza.
Definition UTC (t : Z) : Z := t - tza.

(** [d.setHours(h, m, s, ms)] *)
Definition setHours (d : Date) (h m s ms : Z) : Date :=
  match d with
  | Some tv =>
      let t := LocalTime tv in
      TimeClip (UTC (MakeDate (Day t) (MakeTime h m s ms)))
  | None => None
  end.

(** [d.setDate(dt)] *)
Definition setDate (d : Date) (dt : Z) : Date :=
  match d with
  | Some tv =>
      let t := LocalTime tv in
      let newDate :=
        MakeDate (MakeDay (YearFromTime t) (MonthFromTime t) dt) (TimeWithinDay t) in
      TimeClip (UTC newDate)
  | None => None
  end.

(** [d.getFullYear()], [d.getMonth()], [d.getDate()], [d.getDay()]; [None]
    is the [NaN] an invalid date answers. *)
Definition getFullYear (d : Date) : option Z := YearFromTime ∘ LocalTime <$> d.
Definition getMonth (d : Date) : option Z := MonthFromTime ∘ LocalTime <$> d.
Definition getDate (d : Date) : option Z := DateFromTime ∘ LocalTime <$> d.
Definition getDay (d : Date) : option Z := WeekDay ∘ LocalTime <$> d.

End LocalTime.

(** [a >= b] and [a <= b] on dates compare the time values; a comparison
    with [NaN] is [false]. *)
Definition ge (a b : Date) : bool :=
  match a, b with
  | Some x, Some y => y <=? x
  | _, _ => false
  end.

Definition le (a b : Date) : bool :=
  match a, b with
  | Some x, Some y => x <=? y
  | _, _ => false
  end.

(** ** Formatting *)

Definition digit_char (d : Z) : ascii := ascii_of_N (Z.to_N (48 + d mod 10)).

(** The last [w] decimal digits of [n], most significant first. *)
Fixpoint pad (w : nat) (n : Z) : string :=
  match w with
  | O => EmptyString
  | S w' => pad w' (n / 10) +:+ String (digit_char n) EmptyString
  end.

Definition year_string (y : Z) : string :=
  if (0 <=? y) && (y <=? 9999) then pad 4 y
  else (if y <? 0 then "-" else "+") +:+ pad 6 (Z.abs y).

(** [d.toISOString()] of a valid date: [YYYY-MM-DDTHH:mm:ss.sssZ] in UTC,
    with a sign and six digits for a year outside 0..9999. *)
Definition toISOString (t : Z) : string :=
  year_string (YearFromTime t) +:+ "-" +:+ pad 2 (MonthFromTime t + 1) +:+ "-"
  +:+ pad 2 (DateFromTime t) +:+ "T" +:+ pad 2 (HourFromTime t) +:+ ":"
  +:+ pad 2 (MinFromTime t) +:+ ":" +:+ pad 2 (SecFromTime t) +:+ "."
  +:+ pad 3 (msFromTime t) +:+ "Z".

(** [s.slice(0, n)] for [0 <= n] *)
Definition slice0 (n : nat) (s : string) : string := String.substring 0 n s.

(** ** Parsing

    [Date.parse] on the date-only forms of the date-time string format:
    [YYYY], [YYYY-MM], [YYYY-MM-DD], and the same with an expanded year
    [+YYYYYY] or [-YYYYYY].  A date-only form denotes midnight UTC.  A day
    number up to 31 past the end of its month rolls into the next month.
    The forms with a time part, and whatever an implementation accepts
    beyond the format, are not covered: the embedding answers [NaN] for
    them.  The handlers only ever store date-only texts. *)

Fixpoint digits_exact (n : nat) (l : list ascii) (acc : Z) : option (Z * list ascii) :=
  match n with
  | O => Some (acc, l)
  | S n' =>
      match l with
      | a :: l' =>
          match JS.digit_of a with
          | Some d => digits_exact n' l' (10 * acc + d)
          | None => None
          end
      | [] => None
      end
  end.

Definition parse_year (l : list ascii) : option (Z * list ascii) :=
  match l with
  | "+"%char :: l' => digits_exact 6 l' 0
  | "-"%char :: l' =>
      match digits_exact 6 l' 0 with
      | Some (y, r) => if y =? 0 then None else Some (- y, r)
      | None => None
      end
  | _ => digits_exact 4 l 0
  end.

Definition parse_list (l : list ascii) : option Z :=
  match parse_year l with
  | Some (y, []) => Some (MakeDate (MakeDay y 0 1) 0)
  | Some (y, "-"%char :: l1) =>
      match digits_exact 2 l1 0 with
      | Some (m, l2) =>
          if (1 <=? m) && (m <=? 12) then
            match l2 with
            | [] => Some (MakeDate (MakeDay y (m - 1) 1) 0)
            | "-"%char :: l3 =>
                match digits_exact 2 l3 0 with
                | Some (d, []) =>
                    if (1 <=? d) && (d <=? 31)
                    then Some (MakeDate (MakeDay y (m - 1) d) 0)
                    else None
                | _ => None
                end
            | _ => None
            end
          else None
      | None => None
      end
  | _ => None
  end.

(** [Date.parse(s)]; a date outside the range of time values is [NaN]. *)
Definition parse (s : string) : option Z :=
  match parse_list (list_ascii_of_string s) with
  | Some t => TimeClip t
  | None => None
  end.

(** [new Date(s)] for a string [s] *)
Definition of_string (s : string) : Date := parse s.

End JSDate.


(* ===================================================================== *)
(** * ECMAScript numbers as text *)
(* ===================================================================== *)

Module JSText.

(** The exact value of a finite number that is not zero, as a sign and a
    fraction [p / q] of positive integers. *)
Definition exact (x : JS.number) : option (bool * Z * Z) :=
  match Prim2SF x with
  | S754_finite s m e =>
      Some (s, if 0 <=? e then Zpos m * 2 ^ e else Zpos m,
               if 0 <=? e then 1 else 2 ^ (- e))
  | _ => None
  end.

(** [p / q < 10 ^ n] *)
Definition below_pow10 (p q n : Z) : bool :=
  if 0 <=? n then p <? q * 10 ^ n else p * 10 ^ (- n) <? q.

(** The least [n] with [p / q < 10 ^ n]: the number of digits before the
    decimal point.  It is looked for around the estimate that the binary
    logarithm gives. *)
Definition int_digits (p q : Z) : Z :=
  let a := (Z.log2 p - Z.log2 q) * 30103 / 100000 in
  if below_pow10 p q (a - 1) then a - 1
  else if below_pow10 p q a then a
  else if below_pow10 p q (a + 1) then a + 1
  else if below_pow10 p q (a + 2) then a + 2
  else a + 3.

(** The decimal digits of [n >= 0], at least one. *)
Definition digits (n : Z) : string :=
  JSDate.pad (Z.to_nat (if n =? 0 then 1 else int_digits n 1)) n.

(** For [k] digits: the integer [s] of [k] digits and the exponent [n] such
    that [s * 10 ^ (n - k)] converts to [x], if there is one; of the two
    neighbours of [p / q] the closer one is taken, the even one on a tie. *)
Definition with_digits (x : JS.number) (p q n k : Z) : option (Z * Z) :=
  let sh := n - k in
  let P := if 0 <=? sh then p else p * 10 ^ (- sh) in
  let Q := if 0 <=? sh then q * 10 ^ sh else q in
  let lo := P / Q in
  let r := P mod Q in
  let hi := if lo + 1 =? 10 ^ k then (10 ^ (k - 1), n + 1) else (lo + 1, n) in
  let ok (c : Z * Z) :=
    (0 <? fst c) && PrimFloat.Leibniz.eqb (JS.decimal_value false (fst c) (snd c - k)) x in
  match ok (lo, n), ok hi with
  | true, false => Some (lo, n)
  | false, true => Some hi
  | true, true =>
      match 2 * r ?= Q with
      | Lt => Some (lo, n)
      | Gt => Some hi
      | Eq => if Z.even lo then Some (lo, n) else Some hi
      end
  | false, false => None
  end.

(** The shortest digits: the least [k] from [k0] on for which there are
    such [s] and [n].  Seventeen digits always do; the bound on the search
    is the length of the longest exact decimal expansion of a double. *)
Fixpoint shortest (fuel : nat) (x : JS.number) (p q n k : Z) : Z * Z * Z :=
  match with_digits x p q n k with
  | Some (s, n') => (s, n', k)
  | None =>
      match fuel with
      | O => (0, n, k)
      | S fuel' => shortest fuel' x p q n (k + 1)
      end
  end.

Definition zeros (n : Z) : string := JSDate.pad (Z.to_nat n) 0.

Definition exponent_text (e : Z) : string :=
  (if e <? 0 then "e-" else "e+") +:+ digits (Z.abs e).

(** [Number::toString(x)] in radix 10; the digits are those of the absolute
    value. *)
Definition NumberToString (x : JS.number) : string :=
  match Prim2SF x with
  | S754_nan => "NaN"
  | S754_zero _ => "0"
  | S754_infinity s => if s then "-Infinity" else "Infinity"
  | S754_finite sg _ _ =>
      match exact x with
      | Some (_, p, q) =>
          let '(s, n, k) := shortest 1100 (PrimFloat.abs x) p q (int_digits p q) 1 in
          let ds := JSDate.pad (Z.to_nat k) s in
          let body :=
            if (k <=? n) && (n <=? 21) then ds +:+ zeros (n - k)
            else if (0 <? n) && (n <=? 21) then
              String.substring 0 (Z.to_nat n) ds +:+ "."
              +:+ String.substring (Z.to_nat n) (Z.to_nat (k - n)) ds
            else if (-6 <? n) && (n <=? 0) then "0." +:+ zeros (- n) +:+ ds
            else if k =? 1 then ds +:+ exponent_text (n - 1)
            else
              String.substring 0 1 ds +:+ "."
              +:+ String.substring 1 (Z.to_nat (k - 1)) ds +:+ exponent_text (n - 1) in
          (if sg then "-" else "") +:+ body
      | None => "NaN"
      end
  end.

(** [String(v)] *)
Definition ToString (v : JS.value) : string :=
  match v with
  | JS.VNull => "null"
  | JS.VNum x => NumberToString x
  | JS.VStr s => s
  end.

(** [x.toFixed(2)]: the integer [n] for which [n / 100] is nearest to the
    exact value of [x], the larger one on a tie, written with two digits
    after the point; from [10 ^ 21] on, and for [NaN] and the infinities,
    the text of [Number::toString]. *)
Definition toFixed2 (x : JS.number) : string :=
  match exact x with
  | Some (sg, p, q) =>
      if q * 10 ^ 21 <=? p then NumberToString x
      else
        let n := (200 * p + q) / (2 * q) in
        let m := digits n in
        let m := if (String.length m <=? 2)%nat then zeros (3 - Z.of_nat (String.length m)) +:+ m else m in
        let k := String.length m in
        (if sg then "-" else "")
        +:+ String.substring 0 (k - 2) m +:+ "." +:+ String.substring (k - 2) 2 m
  | None =>
      match Prim2SF x with
      | S754_zero _ => "0.00"
      | _ => NumberToString x
      end
  end.

End JSText.
(* ===================================================================== *)
(** * The [expenses] table *)
(* ===================================================================== *)

Module Store.

(** A row of
    [CREATE TABLE expenses (id INTEGER PRIMARY KEY AUTOINCREMENT,
     amount REAL NOT NULL, category TEXT NOT NULL, note TEXT,
     date TEXT NOT NULL)]
    as [getAllAsync] hands it to the component.  [id] is an integer; a text
    column reads as a string or [null]; [amount] is what the handlers wrote,
    a number, and the aggregation code also provides for [null] and for
    strings. *)
Record Expense : Type := mkExpense {
  id : Z;
  amount : JS.value;
  category : option string;
  note : option string;
  date : option string
}.

(** The table, in row order, and the largest row id handed out so far
    (the [sqlite_sequence] entry that [AUTOINCREMENT] maintains). *)
Record Db : Type := mkDb {
  rows : list Expense;
  seq : Z
}.

Definition empty : Db := mkDb [] 0.

(** The statements the component runs. *)
Inductive Stmt : Type :=
| CreateTable
| SelectAll
| Insert (a : JS.number) (c : string) (n : option string) (d : string)
| Update (a : JS.number) (c : string) (n : option string) (i : Z)
| Delete (i : Z).

Definition max_id (l : list Expense) : Z := fold_right (fun r m => Z.max (id r) m) 0 l.

(** [INSERT INTO expenses (amount, category, note, date) VALUES (?, ?, ?, ?)].
    A [NaN] is bound as [NULL], which [amount REAL NOT NULL] rejects: the
    statement fails and the table is left as it was. *)
Definition insert (a : JS.number) (c : string) (n : option string) (d : string)
    (db : Db) : option Db :=
  if JS.isNaN a then None
  else
    let i := Z.max (seq db) (max_id (rows db)) + 1 in
    Some (mkDb (rows db ++ [mkExpense i (JS.VNum a) (Some c) n (Some d)]) i).

(** [UPDATE expenses SET amount = ?, category = ?, note = ? WHERE id = ?] *)
Definition update (a : JS.number) (c : string) (n : option string) (i : Z)
    (db : Db) : option Db :=
  if JS.isNaN a then None
  else
    Some (mkDb
            (map (fun r =>
                    if id r =? i
                    then mkExpense (id r) (JS.VNum a) (Some c) n (date r)
                    else r)
                 (rows db))
            (seq db)).

(** [DELETE FROM expenses WHERE id = ?] *)
Definition delete (i : Z) (db : Db) : Db :=
  mkDb (List.filter (fun r => negb (id r =? i)) (rows db)) (seq db).

(** The order of two text values: [NULL] sorts before every string, strings
    are compared code unit by code unit. *)
Definition text_le (a b : option string) : Prop :=
  match a, b with
  | None, _ => True
  | Some _, None => False
  | Some x, Some y => String.le x y
  end.

(** [r1] may stand before [r2] under [ORDER BY date DESC, id DESC]: its date
    is the larger one, or the dates are equal and its id is not smaller. *)
Definition precedes (r1 r2 : Expense) : Prop :=
  (text_le (date r2) (date r1) /\ date r1 <> date r2)
  \/ (date r1 = date r2 /\ id r2 <= id r1).

#[export] Instance text_le_dec a b : Decision (text_le a b).
Proof. destruct a, b; simpl; apply _. Defined.

#[export] Instance precedes_dec r1 r2 : Decision (precedes r1 r2).
Proof. unfold precedes. apply _. Defined.

(** [SELECT * FROM expenses ORDER BY date DESC, id DESC] *)
Definition list_all (db : Db) : list Expense := merge_sort precedes (rows db).

(** The primary key: row ids are pairwise distinct, positive, and none is
    above the recorded sequence value. *)
Definition wf (db : Db) : Prop :=
  NoDup (map id (rows db)) /\ Forall (fun r => 0 < id r <= seq db) (rows db).

End Store.

(* ===================================================================== *)
(** * The component: state and handlers *)
(* ===================================================================== *)

Module Screen.

Import Store.

Inductive Filter : Type := All | Week | Month.

(** The state hooks of [ExpenseScreen], the database behind
    [useSQLiteContext], and the statements run on it so far. *)
Record State : Type := mkState {
  db : Db;
  calls : list Stmt;
  expenses : list Expense;
  amount : string;
  category : string;
  note : string;
  filter : Filter;
  editingId : option Z
}.

Definition setExpenses (v : list Expense) (s : State) : State :=
  mkState (db s) (calls s) v (amount s) (category s) (note s) (filter s) (editingId s).
Definition setAmount (v : string) (s : State) : State :=
  mkState (db s) (calls s) (expenses s) v (category s) (note s) (filter s) (editingId s).
Definition setCategory (v : string) (s : State) : State :=
  mkState (db s) (calls s) (expenses s) (amount s) v (note s) (filter s) (editingId s).
Definition setNote (v : string) (s : State) : State :=
  mkState (db s) (calls s) (expenses s) (amount s) (category s) v (filter s) (editingId s).
Definition setFilter (v : Filter) (s : State) : State :=
  mkState (db s) (calls s) (expenses s) (amount s) (category s) (note s) v (editingId s).
Definition setEditingId (v : option Z) (s : State) : State :=
  mkState (db s) (calls s) (expenses s) (amount s) (category s) (note s) (filter s) v.

(** [db.runAsync(stmt)]: the statement is recorded; when it succeeds the
    database is replaced, when it fails the promise is rejected ([None]). *)
Definition runAsync (st : Stmt) (s : State) : option State :=
  let s' d :=
    mkState d (calls s ++ [st]) (expenses s) (amount s) (category s) (note s)
            (filter s) (editingId s) in
  match st with
  | Insert a c n d => s' <$> insert a c n d (db s)
  | Update a c n i => s' <$> update a c n i (db s)
  | Delete i => Some (s' (delete i (db s)))
  | CreateTable | SelectAll => Some (s' (db s))
  end.

(** [loadExpenses] *)
Definition loadExpenses (s : State) : State :=
  let rows := list_all (db s) in
  setExpenses rows
    (mkState (db s) (calls s ++ [SelectAll]) (expenses s) (amount s) (category s)
             (note s) (filter s) (editingId s)).

(** [getTodayDateString]: [new Date().toISOString().slice(0, 10)], for the
    time value [now] that [new Date()] reads from the clock. *)
Definition getTodayDateString (now : Z) : string :=
  JSDate.slice0 10 (JSDate.toISOString now).

(** [x || null] on a string *)
Definition or_null (x : string) : option string :=
  if JS.str_truthy x then Some x else None.

(** [addExpense].  A rejected [runAsync] ends the handler where it is. *)
Definition addExpense (now : Z) (s : State) : State :=
  let amountNumber := JS.parseFloat (amount s) in
  if JS.isNaN amountNumber || JS.le_zero amountNumber then s
  else
    let trimmedCategory := JS.trim (category s) in
    let trimmedNote := JS.trim (note s) in
    if negb (JS.str_truthy trimmedCategory) then s
    else
      let today := getTodayDateString now in
      match runAsync (Insert amountNumber trimmedCategory (or_null trimmedNote) today) s with
      | Some s1 => loadExpenses (setNote "" (setCategory "" (setAmount "" s1)))
      | None => s
      end.

(** [!editingId]: no id is remembered, or the remembered id is [0]. *)
Definition no_editingId (e : option Z) : bool :=
  match e with
  | None => true
  | Some i => i =? 0
  end.

(** [saveEdit] *)
Definition saveEdit (s : State) : State :=
  let amountNumber := JS.parseFloat (amount s) in
  if JS.isNaN amountNumber || JS.le_zero amountNumber then s
  else
    let trimmedCategory := JS.trim (category s) in
    let trimmedNote := JS.trim (note s) in
    if negb (JS.str_truthy trimmedCategory) then s
    else if no_editingId (editingId s) then s
    else
      match editingId s with
      | Some i =>
          match runAsync (Update amountNumber trimmedCategory (or_null trimmedNote) i) s with
          | Some s1 =>
              loadExpenses
                (setNote "" (setCategory "" (setAmount "" (setEditingId None s1))))
          | None => s
          end
      | None => s
      end.

(** [cancelEdit] *)
Definition cancelEdit (s : State) : State :=
  setNote "" (setCategory "" (setAmount "" (setEditingId None s))).

(** [deleteExpense] *)
Definition deleteExpense (i : Z) (s : State) : State :=
  match runAsync (Delete i) s with
  | Some s1 => loadExpenses s1
  | None => s
  end.

(** The effect that runs once when the component mounts: the table is
    created if it is absent, then the rows are loaded. *)
Definition setup (d : Db) : State :=
  loadExpenses (mkState d [CreateTable] [] "" "" "" All None).

(** [startEditing(item)].  [amountText] is the text [String(item.amount)]
    yields, which the embedding takes as given; [item.category] is a string
    for every row of the table. *)
Definition startEditing (item : Expense) (amountText : string) (s : State) : State :=
  setNote (default "" (Store.note item))
    (setCategory (default "" (Store.category item))
       (setAmount amountText (setEditingId (Some (id item)) s))).

(** What the user does between two renders: typing into the three inputs,
    choosing a filter, pressing the edit or the delete mark of a row, and
    the buttons of the form.  The one submit button runs [saveEdit] while an
    id is remembered and [addExpense] otherwise; the cancel button is there
    only while an id is remembered.  [PressSubmit] carries the time the
    clock shows.  The marks are on the listed rows; the events take any row
    and any id. *)
Inductive Event : Type :=
| TypeAmount (v : string)
| TypeCategory (v : string)
| TypeNote (v : string)
| PressFilter (f : Filter)
| PressEdit (item : Expense) (amountText : string)
| PressSubmit (now : Z)
| PressCancel
| PressDelete (i : Z).

Definition step (s : State) (e : Event) : State :=
  match e with
  | TypeAmount v => setAmount v s
  | TypeCategory v => setCategory v s
  | TypeNote v => setNote v s
  | PressFilter f => setFilter f s
  | PressEdit item txt => startEditing item txt s
  | PressSubmit now =>
      if no_editingId (editingId s) then addExpense now s else saveEdit s
  | PressCancel =>
      if no_editingId (editingId s) then s else cancelEdit s
  | PressDelete i => deleteExpense i s
  end.

Definition run (s : State) (es : list Event) : State := fold_left step es s.

End Screen.

(* ===================================================================== *)
(** * The derived values: filtered list and totals *)
(* ===================================================================== *)

Module Engine.

Import Store Screen.

(** [a === b] on two numbers that are integers or [NaN] *)
Definition strict_eq (a b : option Z) : bool :=
  match a, b with
  | Some x, Some y => x =? y
  | _, _ => false
  end.

Section Clock.

(** The zone offset of the device, and the time value [new Date()] reads
    when the memo is evaluated. *)
Variable tza : Z.
Variable now : Z.

(** [filteredExpenses].  The [filter] state only ever holds one of the
    three values the buttons set, so the closing [return expenses] of the
    source is not reached. *)
Definition filteredExpenses (f : Filter) (expenses : list Expense) : list Expense :=
  match f with
  | All => expenses
  | Month =>
      let today := JSDate.setHours tza (Some now) 0 0 0 0 in
      let month := JSDate.getMonth tza today in
      let year := JSDate.getFullYear tza today in
      List.filter
        (fun e =>
           match date e with
           | Some s =>
               if negb (JS.str_truthy s) then false
               else
                 let d := JSDate.of_string s in
                 strict_eq (JSDate.getFullYear tza d) year
                 && strict_eq (JSDate.getMonth tza d) month
           | None => false
           end)
        expenses
  | Week =>
      let today := JSDate.setHours tza (Some now) 0 0 0 0 in
      let day := JSDate.getDay tza today in
      let diffToMonday := (fun d => Z.rem (d + 6) 7) <$> day in
      let startOfWeek :=
        match JSDate.getDate tza today, diffToMonday with
        | Some dt, Some diff => JSDate.setDate tza today (dt - diff)
        | _, _ => None
        end in
      let startOfWeek := JSDate.setHours tza startOfWeek 0 0 0 0 in
      let endOfWeek :=
        match JSDate.getDate tza startOfWeek with
        | Some dt => JSDate.setDate tza startOfWeek (dt + 6)
        | None => None
        end in
      let endOfWeek := JSDate.setHours tza endOfWeek 23 59 59 999 in
      List.filter
        (fun e =>
           match date e with
           | Some s =>
               if negb (JS.str_truthy s) then false
               else
                 let d := JSDate.setHours tza (JSDate.of_string s) 0 0 0 0 in
                 JSDate.ge d startOfWeek && JSDate.le d endOfWeek
           | None => false
           end)
        expenses
  end.

End Clock.

(** [Number(e.amount) || 0] *)
Definition amount_of (e : Expense) : JS.number := JS.or_zero (JS.ToNumber (Store.amount e)).

(** [overallTotal] *)
Definition overallTotal (filteredExpenses : list Expense) : JS.number :=
  fold_left (fun sum e => PrimFloat.add sum (amount_of e)) filteredExpenses JS.zero.

(** [e.category || 'Uncategorized'] *)
Definition category_of (e : Expense) : string :=
  match Store.category e with
  | Some c => if JS.str_truthy c then c else "Uncategorized"
  | None => "Uncategorized"
  end.

(** What a property of [totals] holds: a number, or the text that [+=]
    produces once one operand is not a number (string concatenation; which
    characters it consists of is not followed). *)
Inductive Total : Type :=
| TNum (x : JS.number)
| TText.

(** [totals] is created as [{}], so a key it does not own is looked up on
    [Object.prototype]: there the standard method names answer a function
    object, [__proto__] is an accessor whose getter answers the prototype
    and whose setter ignores a value that is not an object, and any other
    key answers [undefined]. *)
Inductive Inherited : Type := Absent | Method | ProtoAccessor.

Definition object_prototype_methods : list string :=
  [ "constructor"; "hasOwnProperty"; "isPrototypeOf"; "propertyIsEnumerable";
    "toLocaleString"; "toString"; "valueOf";
    "__defineGetter__"; "__defineSetter__"; "__lookupGetter__"; "__lookupSetter__" ].

Definition inherited (k : string) : Inherited :=
  if decide (k = "__proto__") then ProtoAccessor
  else if decide (k ∈ object_prototype_methods) then Method
  else Absent.

(** One turn of the loop of [categoryTotals]:
    [if (!totals[cat]) totals[cat] = 0; totals[cat] += amount]. *)
Definition add_expense (totals : gmap string Total) (e : Expense) : gmap string Total :=
  let cat := category_of e in
  let amount := amount_of e in
  match totals !! cat with
  | Some (TNum v) => <[cat := TNum (PrimFloat.add (JS.or_zero v) amount)]> totals
  | Some TText => <[cat := TText]> totals
  | None =>
      match inherited cat with
      | Absent => <[cat := TNum (PrimFloat.add JS.zero amount)]> totals
      | Method => <[cat := TText]> totals
      | ProtoAccessor => totals
      end
  end.

(** [categoryTotals] *)
Definition categoryTotals (filteredExpenses : list Expense) : gmap string Total :=
  fold_left add_expense filteredExpenses ∅.

(** [totalLabel] *)
Definition totalLabel (f : Filter) : string :=
  match f with
  | Week => "Total This Week"
  | Month => "Total This Month"
  | All => "All Time Total"
  end.

End Engine.

(* ===================================================================== *)
(** * What the component shows *)
(* ===================================================================== *)

Module Render.

Import Store Screen Engine.

(** The texts of one row of the list ([renderExpense]): the amount with two
    decimals, the category, and the note and the date when they are
    truthy. *)
Record RowView : Type := mkRowView {
  row_amount : string;
  row_category : option string;
  row_note : option string;
  row_date : option string
}.

(** [x ? x : null] on a text column *)
Definition when_truthy (x : option string) : option string :=
  match x with
  | Some t => if JS.str_truthy t then Some t else None
  | None => None
  end.

(** [renderExpense] *)
Definition renderExpense (item : Expense) : RowView :=
  mkRowView ("$" +:+ JSText.toFixed2 (JS.ToNumber (Store.amount item)))
            (Store.category item)
            (when_truthy (Store.note item))
            (when_truthy (Store.date item)).

(** The marks of a row: [startEditing(item)] with the text
    [String(item.amount)], and [deleteExpense(item.id)]. *)
Definition pressEdit (item : Expense) (s : State) : State :=
  startEditing item (JSText.ToString (Store.amount item)) s.

Definition pressDelete (item : Expense) (s : State) : State :=
  deleteExpense (id item) s.

(** [total.toFixed(2)] on an entry of [categoryTotals]: a text has no such
    method, and the call throws ([None]). *)
Definition category_amount (t : Total) : option string :=
  match t with
  | TNum x => Some ("$" +:+ JSText.toFixed2 x)
  | TText => None
  end.

(** The block under "By Category": the notice that there are no expenses
    for the filter, or one line per entry of [categoryTotals] (the order of
    the lines is not followed). *)
Inductive CategoryBlock : Type :=
| NoExpensesForFilter
| CategoryLines (lines : gmap string string).

Definition category_block (totals : gmap string Total) : option CategoryBlock :=
  if (size totals =? 0)%nat then Some NoExpensesForFilter
  else
    (fun l => CategoryLines (list_to_map l))
      <$> mapM (fun ct => (fun a => (fst ct, a)) <$> category_amount (snd ct))
               (map_to_list totals).

(** The list: its rows, or "No expenses yet." *)
Inductive ListView : Type :=
| NoExpensesYet
| Rows (rows : list RowView).

Definition list_view (filtered : list Expense) : ListView :=
  match filtered with
  | [] => NoExpensesYet
  | _ => Rows (map renderExpense filtered)
  end.

(** [editingId && (<View>...</View>)]: the left operand when it is falsy
    ([null], or the number 0), else the view with the cancel button. *)
Inductive CancelSlot : Type := SlotNull | SlotZero | SlotCancelButton.

Definition cancel_slot (editingId : option Z) : CancelSlot :=
  match editingId with
  | None => SlotNull
  | Some 0 => SlotZero
  | Some _ => SlotCancelButton
  end.

(** What one render shows. *)
Record View : Type := mkView {
  active_filter : Filter;
  heading : string;
  total : string;
  by_category : CategoryBlock;
  submit_title : string;
  cancel : CancelSlot;
  flat_list : ListView
}.

(** The component's render for the state [s], the memos being evaluated at
    the time [now] in the zone [tza]; [None] when rendering throws. *)
Definition render (tza now : Z) (s : State) : option View :=
  let filtered := filteredExpenses tza now (filter s) (expenses s) in
  (fun block =>
     mkView (filter s)
            ("Total Spending (" +:+ totalLabel (filter s) +:+ "):")
            ("$" +:+ JSText.toFixed2 (overallTotal filtered))
            block
            (if no_editingId (editingId s) then "Add Expense" else "Save Changes")
            (cancel_slot (editingId s))
            (list_view filtered))
    <$> category_block (categoryTotals filtered).

End Render.

(* ===================================================================== *)
(** * The specification's vocabulary

    Definitions that follow the words of the specification, to compare the
    code with. *)
(* ===================================================================== *)

Module Spec.

Import Store Screen.

(** The row an edit of [r] leaves: new amount, category and note, the id
    and the date of [r]. *)
Definition edited (a : JS.number) (c : string) (n : option string) (r : Expense) : Expense :=
  mkExpense (id r) (JS.VNum a) (Some c) n (date r).

(** The row [addExpense] inserts at time [now] from the form of [s]. *)
Definition added (now : Z) (s : State) : Expense :=
  mkExpense (Z.max (seq (db s)) (max_id (rows (db s))) + 1)
            (JS.VNum (JS.parseFloat (amount s)))
            (Some (JS.trim (category s)))
            (or_null (JS.trim (note s)))
            (Some (getTodayDateString now)).

(** A row as the handlers write it: a positive amount, a category and a
    note that are trimmed and not empty (or no note), and a date. *)
Definition valid_row (e : Expense) : Prop :=
  match Store.amount e, Store.category e, date e with
  | JS.VNum a, Some c, Some _ =>
      JS.gt_zero a = true /\ c <> "" /\ JS.trim c = c
      /\ match Store.note e with
         | Some n => n <> "" /\ JS.trim n = n
         | None => True
         end
  | _, _, _ => False
  end.

(** Every row of the table is as the handlers write rows. *)
Definition valid_rows (s : State) : Prop := Forall valid_row (rows (db s)).

(** Since the state [s0]: the sequence value has not gone down, and every
    row has one of the ids [s0] had or an id above the sequence value of
    [s0]. *)
Definition since (s0 s : State) : Prop :=
  seq (db s0) <= seq (db s)
  /\ forall r, In r (rows (db s)) ->
       In (id r) (map id (rows (db s0))) \/ seq (db s0) < id r.

(** The in-memory list is what the table answers to [list_all]. *)
Definition loaded (s : State) : Prop := expenses s = list_all (db s).

(** A calendar date as [YYYY-MM-DD]. *)
Definition ymd (y m d : Z) : string :=
  JSDate.pad 4 y +:+ "-" +:+ JSDate.pad 2 m +:+ "-" +:+ JSDate.pad 2 d.

(** The calendar date of the time value [t]. *)
Definition date_string (t : Z) : string :=
  ymd (JSDate.YearFromTime t) (JSDate.MonthFromTime t + 1) (JSDate.DateFromTime t).

(** The current date where the device is: the calendar date of [now] in
    the zone with offset [tza]. *)
Definition current_date_string (tza now : Z) : string :=
  date_string (JSDate.LocalTime tza now).

(** The day number (days since the epoch) of the calendar date a record
    carries, when its [date] is a date. *)
Definition record_day (e : Expense) : option Z :=
  match date e with
  | Some s => JSDate.Day <$> JSDate.parse s
  | None => None
  end.

(** The day number of the local calendar day on which the instant
    [new Date(e.date)] falls. *)
Definition record_local_day (tza : Z) (e : Expense) : option Z :=
  match date e with
  | Some s => (fun t => JSDate.Day (JSDate.LocalTime tza t)) <$> JSDate.parse s
  | None => None
  end.

(** A range of clock readings that keeps every date the filters compute ten
    days inside the range of time values. *)
Definition clock_in_range (now : Z) : Prop :=
  Z.abs now <= JSDate.maxTime - 10 * JSDate.msPerDay.

(** The day number of the current date, and of the Monday that starts the
    week containing it. *)
Definition current_day (tza now : Z) : Z := JSDate.Day (JSDate.LocalTime tza now).

Definition monday (tza now : Z) : Z :=
  current_day tza now - (JSDate.WeekDay (JSDate.LocalTime tza now) + 6) mod 7.

(** The record's date falls in the Monday-to-Sunday week of the current
    date. *)
Definition in_current_week (tza now : Z) (e : Expense) : bool :=
  match record_day e with
  | Some d => (monday tza now <=? d) && (d <=? monday tza now + 6)
  | None => false
  end.

(** The record's date falls in the calendar month of the current date. *)
Definition in_current_month (tza now : Z) (e : Expense) : bool :=
  match record_day e with
  | Some d =>
      let t := JSDate.MakeDate d 0 in
      let today := JSDate.LocalTime tza now in
      (JSDate.YearFromTime t =? JSDate.YearFromTime today)
      && (JSDate.MonthFromTime t =? JSDate.MonthFromTime today)
  | None => false
  end.

(** What a record adds to a sum of amounts: its amount as a number, zero
    when the amount is not numeric. *)
Definition numeric_amount (e : Expense) : JS.number :=
  let x := JS.ToNumber (Store.amount e) in
  if JS.isNaN x then JS.zero else x.

(** The sum of a list of numbers, added up from the left starting at 0. *)
Definition sum (l : list JS.number) : JS.number := fold_left PrimFloat.add l JS.zero.

(** The sum of the amounts of a list of records. *)
Definition sum_amounts (l : list Expense) : JS.number := sum (map numeric_amount l).

(** The records of one category, in list order. *)
Definition of_category (c : string) (l : list Expense) : list Expense :=
  List.filter (fun e => bool_decide (Engine.category_of e = c)) l.

(** The category totals as the specification words them: every category
    present is mapped to the sum of the amounts of its records. *)
Definition category_total (l : list Expense) (c : string) : option JS.number :=
  if decide (c ∈ map Engine.category_of l)
  then Some (sum (map Engine.amount_of (of_category c l)))
  else None.


(** ** Devices of the proofs *)

(** The code's accumulator [c] and the sum [s] of the numeric amounts agree:
    they are equal, or both are zeros with the code's one positive. *)
Definition agree (c s : JS.number) : Prop :=
  c = s \/ (c = JS.zero /\ PrimFloat.is_zero s = true).

(** How one turn of the loop of [categoryTotals] changes the entry of the
    key [c]. *)
Definition key_step (c : string) (cur : option Engine.Total) (e : Expense)
  : option Engine.Total :=
  if decide (Engine.category_of e = c) then
    match cur with
    | Some (Engine.TNum v) =>
        Some (Engine.TNum (PrimFloat.add (JS.or_zero v) (Engine.amount_of e)))
    | Some Engine.TText => Some Engine.TText
    | None =>
        match Engine.inherited c with
        | Engine.Absent => Some (Engine.TNum (PrimFloat.add JS.zero (Engine.amount_of e)))
        | Engine.Method => Some Engine.TText
        | Engine.ProtoAccessor => None
        end
    end
  else cur.

(** The running total of one key: before each addition a total that is
    falsy is put back to 0. *)
Definition reset_sum (l : list JS.number) (acc : JS.number) : JS.number :=
  fold_left (fun acc a => PrimFloat.add (JS.or_zero acc) a) l acc.


End Spec.

(* ===================================================================== *)
(** * Sample data *)
(* ===================================================================== *)

Module Samples.

Import Store Screen.

(** Offsets of local time: New York in winter, and India. *)
Definition utc_minus_5 : Z := -18000000.
Definition utc_plus_530 : Z := 19800000.

(** 2024-01-29 (a Monday) 15:00 UTC: 10:00 in New York. *)
Definition monday_morning : Z := 1706540400000.

(** 2024-02-01 01:00 UTC: 2024-01-31 20:00 in New York. *)
Definition wednesday_evening : Z := 1706749200000.

(** The first instant of the year 10000. *)
Definition year_10000 : Z := 253402300800000.

(** A row whose amount is the number the text [a] denotes. *)
Definition row (i : Z) (a c d : string) : Expense :=
  mkExpense i (JS.VNum (JS.parseFloat a)) (Some c) None (Some d).

(** The freshly mounted component over an empty table, with a filled form. *)
Definition form (a c n : string) : State :=
  setNote n (setCategory c (setAmount a (setup Store.empty))).

(** Records dated the Sunday before 2024-01-29, that Monday, the Sunday
    that ends its week, and the Monday after. *)
Definition around_the_week : list Expense :=
  [ row 1 "4.00" "Food" "2024-01-28"; row 2 "12.50" "Food" "2024-01-29";
    row 3 "7.00" "Books" "2024-02-04"; row 4 "30.00" "Rent" "2024-02-05" ].

(** Records dated the last day of December 2023, the first and the last
    day of January 2024, and the first day of February. *)
Definition around_the_month : list Expense :=
  [ row 1 "4.00" "Food" "2023-12-31"; row 2 "12.50" "Food" "2024-01-01";
    row 3 "7.00" "Books" "2024-01-31"; row 4 "30.00" "Rent" "2024-02-01" ].


(** Two records of one category. *)
Definition two_lunches : list Expense :=
  [ row 1 "12.50" "Food" "2024-01-29"; row 2 "5.00" "Food" "2024-01-29" ].

(** A session: two records are added, then the first one is deleted. *)
Definition session : list Event :=
  [ TypeAmount "12.50"; TypeCategory " Food "; TypeNote "lunch";
    PressSubmit monday_morning;
    TypeAmount "5"; TypeCategory "Food"; PressSubmit wednesday_evening;
    PressDelete 1 ].

(** An empty table whose id 1 was handed out and deleted. *)
Definition emptied : Db := mkDb [] 1.

(** One stored row, and the form of an edit of it in progress. *)
Definition one_row : Db := mkDb [row 1 "10.00" "Food" "2024-01-29"] 1.

Definition editing (a c n : string) : State :=
  setNote n (setCategory c (setAmount a (setEditingId (Some 1) (setup one_row)))).

(** The form of an edit of a row with id 7, which the table does not have. *)
Definition editing_gone (a c n : string) : State :=
  setNote n (setCategory c (setAmount a (setEditingId (Some 7) (setup one_row)))).

End Samples.

(* ===================================================================== *)
(** * Facts about doubles

    Derived from the specification of the primitive operations
    ([FloatAxioms]): the IEEE-754 classes of a value and the additions in
    which one operand is a zero or [NaN]. *)
(* ===================================================================== *)

Module FloatFacts.

Import JS.

Lemma Prim2SF_zero : Prim2SF PrimFloat.zero = S754_zero false.
Proof. reflexivity. Qed.

Lemma Prim2SF_neg_zero : Prim2SF PrimFloat.neg_zero = S754_zero true.
Proof. reflexivity. Qed.

Lemma Prim2SF_nan : Prim2SF PrimFloat.nan = S754_nan.
Proof. reflexivity. Qed.

Lemma SFcompare_refl_finite s m e :
  SFcompare (S754_finite s m e) (S754_finite s m e) = Some Eq.
Proof.
  simpl. destruct s; rewrite Z.compare_refl, ?Pos.compare_refl; reflexivity.
Qed.

Lemma is_nan_spec x : PrimFloat.is_nan x = true <-> Prim2SF x = S754_nan.
Proof.
  unfold PrimFloat.is_nan. rewrite FloatAxioms.eqb_spec. unfold SFeqb.
  destruct (Prim2SF x) as [s| s | | s m e] eqn:E.
  - destruct s; simpl; split; discriminate.
  - destruct s; simpl; split; discriminate.
  - simpl; split; reflexivity.
  - rewrite SFcompare_refl_finite; simpl; split; discriminate.
Qed.

Lemma is_zero_spec x :
  PrimFloat.is_zero x = true <-> exists s, Prim2SF x = S754_zero s.
Proof.
  unfold PrimFloat.is_zero. rewrite FloatAxioms.eqb_spec, Prim2SF_zero. unfold SFeqb.
  destruct (Prim2SF x) as [s| s | | s m e] eqn:E; simpl.
  - split; eauto.
  - destruct s; split; try discriminate; intros [? ?]; discriminate.
  - split; try discriminate; intros [? ?]; discriminate.
  - destruct s; split; try discriminate; intros [? ?]; discriminate.
Qed.

Lemma nan_eq x : PrimFloat.is_nan x = true -> x = PrimFloat.nan.
Proof.
  intros H. apply is_nan_spec in H. apply Prim2SF_inj. now rewrite H, Prim2SF_nan.
Qed.

Lemma zero_cases x :
  PrimFloat.is_zero x = true -> x = PrimFloat.zero \/ x = PrimFloat.neg_zero.
Proof.
  intros H. apply is_zero_spec in H. destruct H as [s H].
  destruct s; [right | left]; apply Prim2SF_inj; rewrite H; reflexivity.
Qed.

Lemma is_zero_false_spec x :
  PrimFloat.is_zero x = false -> forall s, Prim2SF x <> S754_zero s.
Proof.
  intros H s E. assert (PrimFloat.is_zero x = true) by (apply is_zero_spec; eauto).
  congruence.
Qed.

(** Adding a zero to a value that is not a zero leaves the value. *)
Lemma add_zero_r x z :
  PrimFloat.is_zero x = false -> PrimFloat.is_zero z = true ->
  PrimFloat.add x z = x.
Proof.
  intros Hx Hz. apply is_zero_spec in Hz. destruct Hz as [s Hz].
  apply Prim2SF_inj. rewrite FloatAxioms.add_spec, Hz.
  pose proof (is_zero_false_spec x Hx) as Hn.
  destruct (Prim2SF x) as [s'| s' | | s' m e]; try reflexivity.
  exfalso. apply (Hn s'). reflexivity.
Qed.

Lemma add_zero_l x z :
  PrimFloat.is_zero x = false -> PrimFloat.is_zero z = true ->
  PrimFloat.add z x = x.
Proof.
  intros Hx Hz. apply is_zero_spec in Hz. destruct Hz as [s Hz].
  apply Prim2SF_inj. rewrite FloatAxioms.add_spec, Hz.
  pose proof (is_zero_false_spec x Hx) as Hn.
  destruct (Prim2SF x) as [s'| s' | | s' m e]; try reflexivity.
  exfalso. apply (Hn s'). reflexivity.
Qed.

(** [NaN] is absorbing on the left. *)
Lemma add_nan_l a : PrimFloat.add PrimFloat.nan a = PrimFloat.nan.
Proof.
  apply Prim2SF_inj. rewrite FloatAxioms.add_spec, Prim2SF_nan. reflexivity.
Qed.

Lemma add_not_nan x a :
  PrimFloat.is_nan (PrimFloat.add x a) = false -> PrimFloat.is_nan x = false.
Proof.
  intros H. destruct (PrimFloat.is_nan x) eqn:E; [|reflexivity].
  apply nan_eq in E. subst x. rewrite add_nan_l in H. discriminate.
Qed.

(** The validation of the amount: a number is positive exactly when it is neither
    [NaN] nor at most zero. *)
Lemma amount_check_spec x : isNaN x || le_zero x = negb (gt_zero x).
Proof.
  unfold isNaN, le_zero, gt_zero, zero.
  destruct (PrimFloat.is_nan x) eqn:En.
  - apply nan_eq in En. subst x. reflexivity.
  - rewrite FloatAxioms.leb_spec, FloatAxioms.ltb_spec, Prim2SF_zero. simpl.
    assert (Hn : Prim2SF x <> S754_nan).
    { intros E. apply is_nan_spec in E. congruence. }
    unfold SFleb, SFltb.
    destruct (Prim2SF x) as [s| s | | s m e]; try (destruct s; reflexivity).
    congruence.
Qed.

(** [x || 0] is never the negative zero. *)
Lemma or_zero_not_neg_zero x : or_zero x <> PrimFloat.neg_zero.
Proof.
  unfold or_zero, truthy.
  destruct (PrimFloat.is_nan x) eqn:En; simpl.
  - intros H. apply (f_equal Prim2SF) in H. discriminate.
  - destruct (PrimFloat.is_zero x) eqn:Ez; simpl.
    + intros H. apply (f_equal Prim2SF) in H. discriminate.
    + intros H. subst x. discriminate.
Qed.

(** [(acc || 0) + a] is [acc + a] unless [acc] is [NaN], for an addend that
    is not the negative zero. *)
Lemma add_or_zero acc a :
  PrimFloat.is_nan acc = false -> a <> PrimFloat.neg_zero ->
  PrimFloat.add (or_zero acc) a = PrimFloat.add acc a.
Proof.
  intros Hn Ha. unfold or_zero, truthy. rewrite Hn. simpl.
  destruct (PrimFloat.is_zero acc) eqn:Ez; simpl; [|reflexivity].
  destruct (zero_cases _ Ez) as [-> | ->]; [reflexivity|].
  destruct (PrimFloat.is_zero a) eqn:Eza.
  - destruct (zero_cases _ Eza) as [-> | ->]; [reflexivity | congruence].
  - unfold zero. rewrite !add_zero_l by (assumption || reflexivity). reflexivity.
Qed.

End FloatFacts.

(* ===================================================================== *)
(** * Facts about dates *)
(* ===================================================================== *)

Module DateFacts.

Import JSDate.

Ltac euclid := Z.to_euclidean_division_equations; lia.

Ltac split_ifs :=
  repeat match goal with
         | |- context [if ?b then _ else _] => destruct b eqn:?
         end;
  repeat match goal with
         | H : (_ <? _) = true |- _ => apply Z.ltb_lt in H
         | H : (_ <? _) = false |- _ => apply Z.ltb_ge in H
         | H : (_ <=? _) = true |- _ => apply Z.leb_le in H
         | H : (_ <=? _) = false |- _ => apply Z.leb_gt in H
         end.

(** [YearFromDay] meets the definition of [YearFromTime] in the language
    specification: the year found is the largest one that starts on or
    before the day. *)
Lemma YearFromDay_spec d :
  DayFromYear (YearFromDay d) <= d < DayFromYear (YearFromDay d + 1).
Proof. unfold YearFromDay, DayFromYear. split_ifs; euclid. Qed.

Lemma MonthFromTime_range t : 0 <= MonthFromTime t <= 11.
Proof. unfold MonthFromTime. split_ifs; lia. Qed.

(** Setting the day of the month moves the date by whole days. *)
Lemma MakeDay_shift t x :
  MakeDay (YearFromTime t) (MonthFromTime t) x = Day t - DateFromTime t + x.
Proof.
  pose proof (MonthFromTime_range t) as H.
  unfold MakeDay, DateFromTime, DayWithinYear, InLeapYear.
  rewrite (Z.div_small (MonthFromTime t) 12) by lia.
  rewrite (Z.mod_small (MonthFromTime t) 12) by lia.
  rewrite Z.add_0_r. lia.
Qed.

Lemma Day_MakeDate d r : 0 <= r < msPerDay -> Day (MakeDate d r) = d.
Proof. unfold Day, MakeDate, msPerDay. intros H. euclid. Qed.

Lemma TimeWithinDay_MakeDate d r : 0 <= r < msPerDay -> TimeWithinDay (MakeDate d r) = r.
Proof. unfold TimeWithinDay, MakeDate, msPerDay. intros H. euclid. Qed.

Lemma MakeDate_Day t : MakeDate (Day t) (TimeWithinDay t) = t.
Proof. unfold TimeWithinDay, Day, MakeDate, msPerDay. euclid. Qed.

(** Year, month, day of the month and day of the week depend on the day
    only. *)
Lemma YearFromTime_day t : YearFromTime t = YearFromTime (MakeDate (Day t) 0).
Proof. unfold YearFromTime. rewrite Day_MakeDate by (unfold msPerDay; lia). reflexivity. Qed.

Lemma MonthFromTime_day t : MonthFromTime t = MonthFromTime (MakeDate (Day t) 0).
Proof.
  unfold MonthFromTime, DayWithinYear, InLeapYear, YearFromTime.
  rewrite Day_MakeDate by (unfold msPerDay; lia). reflexivity.
Qed.

Lemma TimeClip_Some t : Z.abs t <= maxTime -> TimeClip t = Some t.
Proof. intros H. unfold TimeClip. apply Z.leb_le in H. now rewrite H. Qed.

Lemma TimeClip_inv t u : TimeClip t = Some u -> u = t /\ Z.abs t <= maxTime.
Proof.
  unfold TimeClip. destruct (Z.abs t <=? maxTime) eqn:E; [|discriminate].
  intros [= <-]. apply Z.leb_le in E. auto.
Qed.

(** A date-only text denotes a midnight in UTC. *)
Lemma parse_list_midnight l t : parse_list l = Some t -> t = MakeDate (Day t) 0.
Proof.
  unfold parse_list. intros H.
  assert (G : forall d, Some (MakeDate d 0) = Some t -> t = MakeDate (Day t) 0).
  { intros d [= <-]. rewrite Day_MakeDate by (unfold msPerDay; lia). reflexivity. }
  repeat match type of H with
         | match ?x with _ => _ end = _ => destruct x; try discriminate
         | (if ?b then _ else _) = _ => destruct b; try discriminate
         | (let (_, _) := ?x in _) = _ => destruct x
         end; eapply G; eassumption.
Qed.

Lemma parse_midnight s t :
  parse s = Some t -> t = MakeDate (Day t) 0 /\ Z.abs t <= maxTime.
Proof.
  unfold parse. destruct (parse_list _) as [u|] eqn:E; [|discriminate].
  intros H. apply TimeClip_inv in H as [-> H]. split; [|exact H].
  eapply parse_list_midnight. eassumption.
Qed.

Lemma digit_char_value d :
  Z.of_N (N_of_ascii (digit_char d)) = 48 + d mod 10.
Proof.
  unfold digit_char. rewrite N_ascii_embedding.
  - rewrite Z2N.id; [reflexivity | euclid].
  - apply N2Z.inj_lt. rewrite Z2N.id by euclid. simpl. euclid.
Qed.

Lemma digit_of_digit_char d : JS.digit_of (digit_char d) = Some (d mod 10).
Proof.
  unfold JS.digit_of. rewrite digit_char_value.
  replace ((48 <=? 48 + d mod 10) && (48 + d mod 10 <=? 57)) with true.
  - f_equal. lia.
  - symmetry. apply andb_true_iff. split; apply Z.leb_le; euclid.
Qed.

Lemma list_ascii_of_string_app a b :
  list_ascii_of_string (a +:+ b) = list_ascii_of_string a ++ list_ascii_of_string b.
Proof.
  induction a as [|c a IH]; [reflexivity|].
  change (c :: list_ascii_of_string (a +:+ b) = c :: (list_ascii_of_string a ++ list_ascii_of_string b)).
  now rewrite IH.
Qed.

Lemma pad_list_S w n :
  list_ascii_of_string (pad (S w) n) = list_ascii_of_string (pad w (n / 10)) ++ [digit_char n].
Proof. cbn [pad]. rewrite list_ascii_of_string_app. reflexivity. Qed.

(** Reading back the digits [pad] wrote *)
Lemma digits_exact_pad w : forall n k rest acc,
  digits_exact (w + k) (list_ascii_of_string (pad w n) ++ rest) acc
  = digits_exact k rest (acc * 10 ^ Z.of_nat w + n mod 10 ^ Z.of_nat w).
Proof.
  induction w as [|w IH]; intros n k rest acc.
  - simpl. f_equal. rewrite Z.mod_1_r. lia.
  - rewrite pad_list_S, <- app_assoc. simpl app.
    replace (S w + k)%nat with (w + S k)%nat by lia.
    rewrite IH. cbn [digits_exact]. rewrite digit_of_digit_char. f_equal.
    rewrite Nat2Z.inj_succ, Z.pow_succ_r by lia.
    assert (Hp : 0 < 10 ^ Z.of_nat w) by (apply Z.pow_pos_nonneg; lia).
    rewrite (Z.rem_mul_r n 10 (10 ^ Z.of_nat w)) by lia. lia.
Qed.

Lemma YearFromDay_step y : DayFromYear (y + 1) - DayFromYear y = if leap y then 366 else 365.
Proof.
  unfold DayFromYear, leap.
  destruct (y mod 4 =? 0) eqn:E4; destruct (y mod 100 =? 0) eqn:E100;
    destruct (y mod 400 =? 0) eqn:E400; simpl;
    rewrite ?Z.eqb_eq, ?Z.eqb_neq in *; euclid.
Qed.

Lemma DayWithinYear_range t :
  0 <= DayWithinYear t < (if InLeapYear t then 366 else 365).
Proof.
  unfold DayWithinYear, InLeapYear, YearFromTime.
  pose proof (YearFromDay_spec (Day t)) as H.
  pose proof (YearFromDay_step (YearFromDay (Day t))) as S.
  destruct (leap _); lia.
Qed.

Lemma DateFromTime_range t : 1 <= DateFromTime t <= 31.
Proof.
  pose proof (DayWithinYear_range t) as H.
  unfold DateFromTime, MonthFromTime. destruct (InLeapYear t); split_ifs; simpl in *; lia.
Qed.

Lemma MakeDay_of_time t :
  MakeDay (YearFromTime t) (MonthFromTime t) (DateFromTime t) = Day t.
Proof. rewrite MakeDay_shift. lia. Qed.


Lemma digit_char_cases x :
  In (digit_char x) (list_ascii_of_string "0123456789").
Proof.
  assert (H : x mod 10 = 0 \/ x mod 10 = 1 \/ x mod 10 = 2 \/ x mod 10 = 3
              \/ x mod 10 = 4 \/ x mod 10 = 5 \/ x mod 10 = 6 \/ x mod 10 = 7
              \/ x mod 10 = 8 \/ x mod 10 = 9) by euclid.
  unfold digit_char.
  repeat (destruct H as [-> | H]; [simpl; tauto|]). rewrite H. simpl. tauto.
Qed.

Lemma parse_year_pad y rest :
  parse_year (list_ascii_of_string (pad 4 y) ++ rest)
  = digits_exact 4 (list_ascii_of_string (pad 4 y) ++ rest) 0.
Proof.
  change (list_ascii_of_string (pad 4 y))
    with [digit_char (y / 10 / 10 / 10); digit_char (y / 10 / 10);
          digit_char (y / 10); digit_char y].
  pose proof (digit_char_cases (y / 10 / 10 / 10)) as H.
  simpl app. generalize dependent (digit_char (y / 10 / 10 / 10)). intros c H.
  simpl in H.
  repeat (destruct H as [<- | H]; [reflexivity|]). destruct H.
Qed.

Lemma digits_exact_pad_all w n rest :
  0 <= n < 10 ^ Z.of_nat w ->
  digits_exact w (list_ascii_of_string (pad w n) ++ rest) 0 = Some (n, rest).
Proof.
  intros H. replace w with (w + 0)%nat at 1 by lia.
  rewrite digits_exact_pad. simpl. rewrite Z.mod_small by exact H. reflexivity.
Qed.

Lemma parse_list_ymd y m d :
  0 <= y <= 9999 -> 1 <= m <= 12 -> 1 <= d <= 31 ->
  parse_list (list_ascii_of_string (Spec.ymd y m d))
  = Some (MakeDate (MakeDay y (m - 1) d) 0).
Proof.
  intros Hy Hm Hd.
  change (list_ascii_of_string (Spec.ymd y m d))
    with (list_ascii_of_string (pad 4 y)
          ++ "-"%char :: (list_ascii_of_string (pad 2 m)
                          ++ "-"%char :: (list_ascii_of_string (pad 2 d) ++ []))).
  unfold parse_list. rewrite parse_year_pad.
  rewrite !digits_exact_pad_all by (simpl; lia).
  replace ((1 <=? m) && (m <=? 12)) with true
    by (symmetry; apply andb_true_iff; split; apply Z.leb_le; lia).
  replace ((1 <=? d) && (d <=? 31)) with true
    by (symmetry; apply andb_true_iff; split; apply Z.leb_le; lia).
  reflexivity.
Qed.

Lemma year_range_day t :
  0 <= YearFromTime t <= 9999 -> -719528 <= Day t <= 2932896.
Proof.
  unfold YearFromTime. intros H.
  pose proof (YearFromDay_spec (Day t)) as S. revert S H.
  generalize (YearFromDay (Day t)). unfold DayFromYear. intros. euclid.
Qed.

(** The text [toISOString] writes for a day reads back as the midnight that
    starts that day. *)
Lemma parse_date_string t :
  0 <= YearFromTime t <= 9999 ->
  parse (Spec.date_string t) = Some (MakeDate (Day t) 0).
Proof.
  intros Hy. unfold parse, Spec.date_string.
  pose proof (MonthFromTime_range t) as Hm.
  pose proof (DateFromTime_range t) as Hd.
  rewrite parse_list_ymd by lia.
  replace (MonthFromTime t + 1 - 1) with (MonthFromTime t) by lia.
  rewrite MakeDay_of_time. apply TimeClip_Some.
  pose proof (year_range_day t Hy). unfold MakeDate, maxTime, msPerDay. lia.
Qed.

End DateFacts.

(* ===================================================================== *)
(** * Properties of the table *)
(* ===================================================================== *)

Module StoreFacts.

Import Store.

Lemma text_le_refl a : text_le a a.
Proof. destruct a; simpl; [reflexivity | exact I]. Qed.

Lemma text_le_trans a b c : text_le a b -> text_le b c -> text_le a c.
Proof.
  destruct a, b, c; simpl; try tauto. intros; etrans; eassumption.
Qed.

Lemma text_le_antisym a b : text_le a b -> text_le b a -> a = b.
Proof.
  destruct a, b; simpl; try tauto.
  intros H1 H2. f_equal. apply (anti_symm String.le); assumption.
Qed.

Lemma text_le_total a b : text_le a b \/ text_le b a.
Proof. destruct a, b; simpl; auto. apply (total String.le). Qed.

#[export] Instance precedes_total : Total precedes.
Proof.
  intros r1 r2. unfold precedes.
  destruct (decide (date r1 = date r2)) as [E | N].
  - destruct (Z.le_ge_cases (id r1) (id r2)); [right | left]; right; split;
      auto with lia.
  - destruct (text_le_total (date r1) (date r2)); [right | left]; left; split;
      auto.
Qed.

#[export] Instance precedes_trans : Transitive precedes.
Proof.
  intros r1 r2 r3 [[L1 N1] | [E1 I1]] [[L2 N2] | [E2 I2]]; unfold precedes.
  - left. split; [eapply text_le_trans; eassumption |].
    intros E. rewrite E in L1. apply N2. apply text_le_antisym; assumption.
  - left. rewrite <- E2. auto.
  - left. rewrite E1. auto.
  - right. split; [congruence | lia].
Qed.

(** The loaded list is in the order of the [ORDER BY] clause. *)
Lemma list_all_sorted db : StronglySorted precedes (list_all db).
Proof. apply StronglySorted_merge_sort; apply _. Qed.

(** The loaded list holds the rows of the table, each as often as the table
    does. *)
Lemma list_all_perm db : list_all db ≡ₚ rows db.
Proof. apply merge_sort_Permutation. Qed.

Lemma max_id_ge l r : In r l -> id r <= max_id l.
Proof.
  induction l as [|r' l IH]; simpl; [tauto|].
  intros [-> | H]; [lia | specialize (IH H); lia].
Qed.

Lemma max_id_nonneg l : 0 <= max_id l.
Proof. induction l; simpl; lia. Qed.

Lemma wf_empty : wf empty.
Proof. split; simpl; constructor. Qed.

Lemma wf_insert a c n d db db' :
  wf db -> insert a c n d db = Some db' -> wf db'.
Proof.
  intros [Hnd Hb]. unfold insert. destruct (JS.isNaN a); [discriminate|].
  intros [= <-]. pose proof (max_id_nonneg (rows db)) as Hm.
  rewrite Forall_forall in Hb.
  split; simpl.
  - rewrite map_app. simpl. apply NoDup_app. split; [assumption|]. split.
    + intros i Hi Hin. apply list_elem_of_singleton in Hin.
      apply list_elem_of_In, in_map_iff in Hi as [r [Hr Hin']].
      apply list_elem_of_In in Hin'. specialize (Hb r Hin'). lia.
    + apply NoDup_singleton.
  - apply Forall_app. split.
    + apply Forall_forall. intros r Hr. specialize (Hb r Hr). lia.
    + constructor; [simpl; lia | constructor].
Qed.

Lemma update_ids a c n i l :
  map id (map (fun r => if id r =? i
                        then mkExpense (id r) (JS.VNum a) (Some c) n (date r)
                        else r) l) = map id l.
Proof.
  induction l as [|r l IH]; simpl; [reflexivity|].
  rewrite IH. destruct (id r =? i); reflexivity.
Qed.

Lemma wf_update a c n i db db' :
  wf db -> update a c n i db = Some db' -> wf db'.
Proof.
  intros [Hnd Hb]. unfold update. destruct (JS.isNaN a); [discriminate|].
  intros [= <-]. split; simpl.
  - rewrite update_ids. assumption.
  - rewrite Forall_forall in Hb. apply Forall_forall. intros r Hr.
    apply list_elem_of_In, in_map_iff in Hr as [r' [<- Hr']].
    apply list_elem_of_In in Hr'. specialize (Hb r' Hr').
    destruct (id r' =? i); simpl; lia.
Qed.

Lemma delete_In i l r :
  In r (List.filter (fun r => negb (id r =? i)) l) <-> In r l /\ id r <> i.
Proof.
  rewrite List.filter_In. rewrite negb_true_iff, Z.eqb_neq. reflexivity.
Qed.

Lemma wf_delete i db : wf db -> wf (delete i db).
Proof.
  intros [Hnd Hb]. split; simpl.
  - clear Hb. induction (rows db) as [|r l IH]; simpl; [constructor|].
    inversion Hnd as [|? ? Hni Hnd']; subst.
    destruct (negb (id r =? i)); simpl; [|auto].
    constructor; [|auto]. intros Hin. apply Hni.
    apply list_elem_of_In, in_map_iff in Hin as [r' [E Hr']].
    apply delete_In in Hr' as [Hr' _].
    apply list_elem_of_In, in_map_iff. eauto.
  - rewrite Forall_forall in Hb. apply Forall_forall. intros r Hr. apply Hb.
    apply list_elem_of_In. apply list_elem_of_In, delete_In in Hr. tauto.
Qed.

End StoreFacts.

(* ===================================================================== *)
(** * Properties of the handlers *)
(* ===================================================================== *)

Module ScreenFacts.

Import Store Screen StoreFacts.
Import Spec (loaded).

Lemma str_truthy_false s : JS.str_truthy s = false <-> s = "".
Proof. destruct s; simpl; split; congruence. Qed.

Lemma str_truthy_true s : JS.str_truthy s = true <-> s <> "".
Proof. destruct s; simpl; split; congruence. Qed.

(** ** What the handlers do on a form that passes validation *)

Lemma addExpense_valid now s :
  JS.gt_zero (JS.parseFloat (amount s)) = true ->
  JS.trim (category s) <> "" ->
  let i := Z.max (seq (db s)) (max_id (rows (db s))) + 1 in
  let r := mkExpense i (JS.VNum (JS.parseFloat (amount s)))
                     (Some (JS.trim (category s)))
                     (or_null (JS.trim (note s)))
                     (Some (getTodayDateString now)) in
  db (addExpense now s) = mkDb (rows (db s) ++ [r]) i
  /\ expenses (addExpense now s) = list_all (mkDb (rows (db s) ++ [r]) i).
Proof.
  intros Hpos Hcat. unfold addExpense.
  pose proof (FloatFacts.amount_check_spec (JS.parseFloat (amount s))) as Hg.
  rewrite Hpos in Hg. simpl in Hg. rewrite Hg.
  apply orb_false_iff in Hg as [Hnan _].
  apply str_truthy_true in Hcat. rewrite Hcat. simpl.
  unfold insert. rewrite Hnan. simpl. split; reflexivity.
Qed.

Lemma saveEdit_valid s i :
  JS.gt_zero (JS.parseFloat (amount s)) = true ->
  JS.trim (category s) <> "" ->
  editingId s = Some i -> i <> 0 ->
  let f := fun r =>
    if id r =? i
    then Spec.edited (JS.parseFloat (amount s)) (JS.trim (category s))
                (or_null (JS.trim (note s))) r
    else r in
  db (saveEdit s) = mkDb (map f (rows (db s))) (seq (db s))
  /\ expenses (saveEdit s) = list_all (mkDb (map f (rows (db s))) (seq (db s))).
Proof.
  intros Hpos Hcat He Hi. unfold saveEdit.
  pose proof (FloatFacts.amount_check_spec (JS.parseFloat (amount s))) as Hg.
  rewrite Hpos in Hg. simpl in Hg. rewrite Hg.
  apply orb_false_iff in Hg as [Hnan _].
  apply str_truthy_true in Hcat. rewrite Hcat. simpl.
  rewrite He. simpl. apply Z.eqb_neq in Hi. rewrite Hi.
  unfold update. rewrite Hnan. simpl. split; reflexivity.
Qed.

(** ** The loaded list follows the table *)

Lemma loadExpenses_loaded s : loaded (loadExpenses s).
Proof. reflexivity. Qed.

Lemma addExpense_loaded now s : loaded s -> loaded (addExpense now s).
Proof.
  intros H. unfold addExpense.
  destruct (JS.isNaN _ || JS.le_zero _); [assumption|].
  destruct (negb _); [assumption|].
  destruct (runAsync _ s); [apply loadExpenses_loaded | assumption].
Qed.

Lemma saveEdit_loaded s : loaded s -> loaded (saveEdit s).
Proof.
  intros H. unfold saveEdit.
  destruct (JS.isNaN _ || JS.le_zero _); [assumption|].
  destruct (negb _); [assumption|].
  destruct (no_editingId _); [assumption|].
  destruct (editingId s); [|assumption].
  destruct (runAsync _ s); [apply loadExpenses_loaded | assumption].
Qed.

Lemma step_loaded s e : loaded s -> loaded (step s e).
Proof.
  intros H. destruct e; simpl; try assumption.
  - destruct (no_editingId _); [apply addExpense_loaded | apply saveEdit_loaded];
      exact H.
  - destruct (no_editingId _); exact H.
  - apply loadExpenses_loaded.
Qed.

Lemma run_loaded es : forall s, loaded s -> loaded (run s es).
Proof.
  induction es as [|e es IH]; intros s H; simpl; [assumption|].
  apply IH, step_loaded, H.
Qed.

(** ** The primary key survives every handler *)

Lemma runAsync_wf st s s' : wf (db s) -> runAsync st s = Some s' -> wf (db s').
Proof.
  intros H. destruct st; simpl.
  - intros [= <-]. assumption.
  - intros [= <-]. assumption.
  - destruct (insert a c n d (db s)) eqn:E; simpl; [|discriminate].
    intros [= <-]. simpl. eapply wf_insert; eassumption.
  - destruct (update a c n i (db s)) eqn:E; simpl; [|discriminate].
    intros [= <-]. simpl. eapply wf_update; eassumption.
  - intros [= <-]. simpl. apply wf_delete. assumption.
Qed.

Lemma addExpense_wf now s : wf (db s) -> wf (db (addExpense now s)).
Proof.
  intros H. unfold addExpense.
  destruct (JS.isNaN _ || JS.le_zero _); [assumption|].
  destruct (negb _); [assumption|].
  destruct (runAsync _ s) eqn:E; [|assumption].
  simpl. eapply runAsync_wf; eassumption.
Qed.

Lemma saveEdit_wf s : wf (db s) -> wf (db (saveEdit s)).
Proof.
  intros H. unfold saveEdit.
  destruct (JS.isNaN _ || JS.le_zero _); [assumption|].
  destruct (negb _); [assumption|].
  destruct (no_editingId _); [assumption|].
  destruct (editingId s); [|assumption].
  destruct (runAsync _ s) eqn:E; [|assumption].
  simpl. eapply runAsync_wf; eassumption.
Qed.

Lemma step_wf s e : wf (db s) -> wf (db (step s e)).
Proof.
  intros H. destruct e; simpl; try assumption.
  - destruct (no_editingId _); [apply addExpense_wf | apply saveEdit_wf]; exact H.
  - destruct (no_editingId _); exact H.
  - apply wf_delete. assumption.
Qed.

Lemma run_wf es : forall s, wf (db s) -> wf (db (run s es)).
Proof.
  induction es as [|e es IH]; intros s H; simpl; [assumption|].
  apply IH, step_wf, H.
Qed.

(** From a table that satisfies its primary key, and so from the empty one,
    every state the component reaches has such a table. *)
Lemma reachable_wf d es : wf d -> wf (db (run (setup d) es)).
Proof. intros H. apply run_wf. exact H. Qed.

(** ** Deleting an id that is not there *)

Lemma delete_absent i db :
  ~ In i (map id (rows db)) -> rows (delete i db) = rows db.
Proof.
  unfold delete. simpl. induction (rows db) as [|r l IH]; simpl; [reflexivity|].
  intros Hn. destruct (id r =? i) eqn:E; simpl.
  - apply Z.eqb_eq in E. tauto.
  - f_equal. apply IH. tauto.
Qed.

Lemma deleteExpense_absent i s :
  ~ In i (map id (rows (db s))) -> rows (db (deleteExpense i s)) = rows (db s).
Proof. intros H. simpl. apply delete_absent, H. Qed.

(** ** Updating one row of a table with distinct ids *)

Lemma map_update_absent (f : Expense -> Expense) i l :
  (forall r, id r <> i -> f r = r) ->
  ~ In i (map id l) -> map f l = l.
Proof.
  intros Hf. induction l as [|r l IH]; simpl; [reflexivity|].
  intros Hn. rewrite IH by tauto. rewrite Hf; [reflexivity|].
  intros E. apply Hn. auto.
Qed.

Lemma map_update_insert (f : Expense -> Expense) l : forall k r,
  (forall r', id r' <> id r -> f r' = r') ->
  NoDup (map id l) -> l !! k = Some r ->
  map f l = <[k := f r]> l.
Proof.
  induction l as [|r0 l IH]; intros k r Hf Hnd Hk; [discriminate|].
  simpl in Hnd. apply NoDup_cons in Hnd as [Hni Hnd].
  destruct k as [|k]; simpl in *.
  - injection Hk as ->. f_equal. eapply map_update_absent; [exact Hf|].
    rewrite <- list_elem_of_In. assumption.
  - rewrite (IH k r Hf Hnd Hk). f_equal. apply Hf. intros E. apply Hni.
    rewrite E. apply list_elem_of_In, in_map, list_elem_of_In.
    eapply list_elem_of_lookup_2. eassumption.
Qed.

Lemma filter_id_absent i l :
  ~ In i (map id l) -> List.filter (fun x => id x =? i) l = [].
Proof.
  induction l as [|r l IH]; simpl; [reflexivity|].
  intros Hn. destruct (id r =? i) eqn:E.
  - apply Z.eqb_eq in E. tauto.
  - apply IH. tauto.
Qed.

Lemma filter_id_unique l : forall k r,
  NoDup (map id l) -> l !! k = Some r ->
  List.filter (fun x => id x =? id r) l = [r].
Proof.
  induction l as [|r0 l IH]; intros k r Hnd Hk; [discriminate|].
  simpl in Hnd. apply NoDup_cons in Hnd as [Hni Hnd].
  destruct k as [|k]; simpl in *.
  - injection Hk as ->. rewrite Z.eqb_refl. f_equal.
    apply filter_id_absent. rewrite <- list_elem_of_In. assumption.
  - destruct (id r0 =? id r) eqn:E.
    + apply Z.eqb_eq in E. exfalso. apply Hni. rewrite E.
      apply list_elem_of_In, in_map, list_elem_of_In.
      eapply list_elem_of_lookup_2. eassumption.
    + eapply IH; eassumption.
Qed.

Lemma filter_Permutation {A} (p : A -> bool) (l1 l2 : list A) :
  l1 ≡ₚ l2 -> List.filter p l1 ≡ₚ List.filter p l2.
Proof.
  induction 1 as [|x l1 l2 _ IH|x y l|l1 l2 l3 _ IH1 _ IH2]; simpl.
  - reflexivity.
  - destruct (p x); [constructor|]; assumption.
  - destruct (p x), (p y); try reflexivity. constructor.
  - etrans; eassumption.
Qed.

End ScreenFacts.

(* ===================================================================== *)
(** * What the week and month filters keep *)
(* ===================================================================== *)

Module FilterFacts.

Import Store Screen Engine JSDate DateFacts.

Section Zone.

Variables tza now : Z.

(** Zone offsets are less than a day. *)
Hypothesis zone : Z.abs tza < msPerDay.
Hypothesis clock : Spec.clock_in_range now.

Local Abbreviation today_day := (Spec.current_day tza now).
Local Abbreviation monday := (Spec.monday tza now).

Lemma LocalTime_UTC t : LocalTime tza (t - tza) = t.
Proof. unfold LocalTime. lia. Qed.

Lemma monday_range : today_day - 6 <= monday <= today_day.
Proof. unfold Spec.monday. euclid. Qed.

Lemma near_today_in_range d r :
  today_day - 7 <= d <= today_day + 7 -> 0 <= r < msPerDay ->
  Z.abs (MakeDate d r - tza) <= maxTime.
Proof.
  revert zone clock.
  unfold Spec.clock_in_range, Spec.current_day, LocalTime, MakeDate, Day, maxTime, msPerDay.
  intros. euclid.
Qed.

(** [today]: the local midnight that starts the current day. *)
Lemma today_value :
  setHours tza (Some now) 0 0 0 0 = Some (MakeDate today_day 0 - tza).
Proof.
  unfold setHours, UTC, MakeTime. cbn [Z.mul Z.add].
  apply TimeClip_Some, near_today_in_range; unfold msPerDay; lia.
Qed.

Lemma setHours_midnight d h m s ms :
  today_day - 7 <= d <= today_day + 7 ->
  0 <= MakeTime h m s ms < msPerDay ->
  setHours tza (Some (MakeDate d 0 - tza)) h m s ms
  = Some (MakeDate d (MakeTime h m s ms) - tza).
Proof.
  intros Hd Ht. unfold setHours, UTC. rewrite LocalTime_UTC.
  rewrite Day_MakeDate by (unfold msPerDay; lia).
  apply TimeClip_Some, near_today_in_range; assumption.
Qed.

Lemma setDate_midnight d x :
  today_day - 7 <= d - DateFromTime (MakeDate d 0) + x <= today_day + 7 ->
  setDate tza (Some (MakeDate d 0 - tza)) x
  = Some (MakeDate (d - DateFromTime (MakeDate d 0) + x) 0 - tza).
Proof.
  intros Hd. unfold setDate, UTC. rewrite LocalTime_UTC, MakeDay_shift.
  rewrite Day_MakeDate, TimeWithinDay_MakeDate by (unfold msPerDay; lia).
  apply TimeClip_Some, near_today_in_range; [assumption | unfold msPerDay; lia].
Qed.

Lemma WeekDay_today :
  Z.rem (WeekDay (MakeDate today_day 0) + 6) 7 = (WeekDay (LocalTime tza now) + 6) mod 7.
Proof.
  unfold WeekDay. rewrite Day_MakeDate by (unfold msPerDay; lia).
  unfold Spec.current_day. euclid.
Qed.

(** [startOfWeek]: the local midnight that starts the Monday of the week. *)
Lemma startOfWeek_value :
  let today := setHours tza (Some now) 0 0 0 0 in
  let startOfWeek :=
    match getDate tza today, (fun d => Z.rem (d + 6) 7) <$> getDay tza today with
    | Some dt, Some diff => setDate tza today (dt - diff)
    | _, _ => None
    end in
  setHours tza startOfWeek 0 0 0 0 = Some (MakeDate monday 0 - tza).
Proof.
  cbv zeta. rewrite today_value.
  unfold getDate, getDay. cbn [fmap option_fmap option_map compose].
  rewrite LocalTime_UTC, WeekDay_today.
  pose proof monday_range as Hm.
  rewrite setDate_midnight by (fold monday; unfold Spec.monday in *; lia).
  replace (today_day - DateFromTime (MakeDate today_day 0)
           + (DateFromTime (MakeDate today_day 0) - (WeekDay (LocalTime tza now) + 6) mod 7))
    with monday by (unfold Spec.monday; lia).
  rewrite setHours_midnight by (unfold MakeTime, msPerDay; lia).
  reflexivity.
Qed.

(** [endOfWeek]: the last millisecond of the Sunday of the week. *)
Lemma endOfWeek_value :
  let startOfWeek := Some (MakeDate monday 0 - tza) in
  let endOfWeek :=
    match getDate tza startOfWeek with
    | Some dt => setDate tza startOfWeek (dt + 6)
    | None => None
    end in
  setHours tza endOfWeek 23 59 59 999 = Some (MakeDate (monday + 6) 86399999 - tza).
Proof.
  cbv zeta. unfold getDate. cbn [fmap option_fmap option_map compose].
  rewrite LocalTime_UTC.
  pose proof monday_range as Hm.
  rewrite setDate_midnight by lia.
  replace (monday - DateFromTime (MakeDate monday 0) + (DateFromTime (MakeDate monday 0) + 6))
    with (monday + 6) by lia.
  rewrite setHours_midnight by (unfold MakeTime, msPerDay; lia).
  reflexivity.
Qed.

(** The local start of day of a record's date. *)
Lemma record_start_of_day t :
  Z.abs t <= maxTime ->
  setHours tza (Some t) 0 0 0 0
  = TimeClip (MakeDate (Day (LocalTime tza t)) 0 - tza).
Proof. reflexivity. Qed.

(** The [Week] filter keeps the records whose date, read as midnight UTC
    and seen in local time, is a day of the current Monday-to-Sunday week. *)
Lemma week_filter_local l :
  filteredExpenses tza now Week l
  = List.filter
      (fun e =>
         match Spec.record_local_day tza e with
         | Some d => (monday <=? d) && (d <=? monday + 6)
         | None => false
         end) l.
Proof.
  unfold filteredExpenses. cbv zeta.
  rewrite startOfWeek_value. rewrite endOfWeek_value.
  apply List.filter_ext. intros e. unfold Spec.record_local_day.
  destruct (date e) as [s|]; [|reflexivity].
  destruct (JS.str_truthy s) eqn:Es; cbn [negb].
  - unfold of_string. destruct (parse s) as [t|] eqn:Ep; [|reflexivity].
    apply parse_midnight in Ep as [_ Ht].
    cbn [fmap option_fmap option_map]. rewrite record_start_of_day by exact Ht.
    pose proof monday_range as Hm.
    set (d := Day (LocalTime tza t)). unfold TimeClip.
    destruct (Z.abs (MakeDate d 0 - tza) <=? maxTime) eqn:Ec.
    + unfold ge, le. apply eq_true_iff_eq.
      rewrite !andb_true_iff, !Z.leb_le. unfold MakeDate, msPerDay. lia.
    + apply Z.leb_gt in Ec. symmetry. apply andb_false_iff.
      destruct (Z.le_gt_cases monday d) as [Hd | Hd].
      * right. apply Z.leb_gt.
        assert (~ (today_day - 7 <= d <= today_day + 7)) as Hn.
        { intros Hb. pose proof (near_today_in_range d 0 Hb). unfold msPerDay in *. lia. }
        lia.
      * left. apply Z.leb_gt. lia.
  - apply ScreenFacts.str_truthy_false in Es. subst s. reflexivity.
Qed.

(** The [Month] filter keeps the records whose date, read as midnight UTC
    and seen in local time, is a day of the current month. *)
Lemma month_filter_local l :
  filteredExpenses tza now Month l
  = List.filter
      (fun e =>
         match Spec.record_local_day tza e with
         | Some d =>
             (YearFromTime (MakeDate d 0) =? YearFromTime (LocalTime tza now))
             && (MonthFromTime (MakeDate d 0) =? MonthFromTime (LocalTime tza now))
         | None => false
         end) l.
Proof.
  unfold filteredExpenses. cbv zeta. rewrite today_value.
  unfold getFullYear, getMonth. cbn [fmap option_fmap option_map compose].
  rewrite LocalTime_UTC.
  fold today_day. unfold Spec.current_day.
  rewrite <- YearFromTime_day, <- MonthFromTime_day.
  apply List.filter_ext. intros e. unfold Spec.record_local_day.
  destruct (date e) as [s|]; [|reflexivity].
  destruct (JS.str_truthy s) eqn:Es; cbn [negb].
  - unfold of_string. destruct (parse s) as [t|]; [|reflexivity].
    cbn [fmap option_fmap option_map strict_eq].
    rewrite <- YearFromTime_day, <- MonthFromTime_day. reflexivity.
  - apply ScreenFacts.str_truthy_false in Es. subst s. reflexivity.
Qed.

(** East of Greenwich, and in UTC, that local day is the record's own
    date; west of it, it is the day before. *)
Lemma record_local_day_east e :
  0 <= tza -> Spec.record_local_day tza e = Spec.record_day e.
Proof.
  intros Hz. unfold Spec.record_local_day, Spec.record_day.
  destruct (date e) as [s|]; [|reflexivity].
  destruct (parse s) as [t|] eqn:Ep; [|reflexivity].
  apply parse_midnight in Ep as [Ht _]. cbn [fmap option_fmap option_map].
  f_equal. revert Ht zone. unfold LocalTime, MakeDate, Day, msPerDay. intros. euclid.
Qed.


(** So in those zones the filters keep what the specification says. *)
Lemma week_filter_east l :
  0 <= tza ->
  filteredExpenses tza now Week l = List.filter (Spec.in_current_week tza now) l.
Proof.
  intros Hz. rewrite week_filter_local. apply List.filter_ext. intros e.
  unfold Spec.in_current_week. rewrite record_local_day_east by exact Hz. reflexivity.
Qed.

Lemma month_filter_east l :
  0 <= tza ->
  filteredExpenses tza now Month l = List.filter (Spec.in_current_month tza now) l.
Proof.
  intros Hz. rewrite month_filter_local. apply List.filter_ext. intros e.
  unfold Spec.in_current_month. rewrite record_local_day_east by exact Hz. reflexivity.
Qed.


End Zone.

End FilterFacts.

(* ===================================================================== *)
(** * Validation, the stored date, edits and the load order *)
(* ===================================================================== *)

Module HandlerProps.

Import Store Screen StoreFacts ScreenFacts.

(** C1.  When the amount text does not parse to a number greater than zero,
    or the category text trims to the empty string, [addExpense] and
    [saveEdit] leave the table as it is and run no statement on it; the
    state of the component is unchanged altogether. *)
Theorem C1_rejected_form_is_noop (now : Z) (s : State) :
  JS.gt_zero (JS.parseFloat (amount s)) = false \/ JS.trim (category s) = "" ->
  (rows (db (addExpense now s)) = rows (db s)
   /\ calls (addExpense now s) = calls s
   /\ addExpense now s = s)
  /\ (rows (db (saveEdit s)) = rows (db s)
      /\ calls (saveEdit s) = calls s
      /\ saveEdit s = s).
Proof.
  intros H.
  assert (Ha : addExpense now s = s).
  { unfold addExpense.
    rewrite FloatFacts.amount_check_spec.
    destruct H as [-> | Hc]; [reflexivity|].
    destruct (negb (JS.gt_zero _)); [reflexivity|].
    rewrite Hc. reflexivity. }
  assert (He : saveEdit s = s).
  { unfold saveEdit.
    rewrite FloatFacts.amount_check_spec.
    destruct H as [-> | Hc]; [reflexivity|].
    destruct (negb (JS.gt_zero _)); [reflexivity|].
    rewrite Hc. reflexivity. }
  rewrite Ha, He. auto.
Qed.

Lemma C1_rejected_form_is_noop_witness :
  let s := Samples.form "abc" "Food" "" in
  (JS.gt_zero (JS.parseFloat (amount s)) = false \/ JS.trim (category s) = "")
  /\ (rows (db (addExpense Samples.monday_morning s)) = rows (db s)
      /\ calls (addExpense Samples.monday_morning s) = calls s
      /\ addExpense Samples.monday_morning s = s)
  /\ (rows (db (saveEdit s)) = rows (db s)
      /\ calls (saveEdit s) = calls s
      /\ saveEdit s = s).
Proof.
  split.
  - left. vm_compute. reflexivity.
  - apply (C1_rejected_form_is_noop Samples.monday_morning (Samples.form "abc" "Food" "")).
    left. vm_compute. reflexivity.
Defined.

(** ** The date a new record gets *)

Lemma string_length_app a b : String.length (a +:+ b) = (String.length a + String.length b)%nat.
Proof. induction a as [|c a IH]; simpl; [reflexivity | now rewrite IH]. Qed.

Lemma pad_length w : forall n, String.length (JSDate.pad w n) = w.
Proof.
  induction w as [|w IH]; intros n; simpl; [reflexivity|].
  rewrite string_length_app, IH. simpl. lia.
Qed.

Lemma substring_app_exact a b :
  String.substring 0 (String.length a) (a +:+ b) = a.
Proof.
  induction a as [|c a IH]; simpl.
  - destruct b; reflexivity.
  - now rewrite IH.
Qed.

Lemma string_app_assoc a b c : (a +:+ b) +:+ c = a +:+ (b +:+ c).
Proof.
  induction a as [|x a IH]; [reflexivity|].
  change (String x ((a +:+ b) +:+ c) = String x (a +:+ (b +:+ c))).
  now rewrite IH.
Qed.

(** For a time value in the years 0 to 9999 the stored text is the UTC
    calendar date as [YYYY-MM-DD]. *)
Lemma getTodayDateString_utc now :
  0 <= JSDate.YearFromTime now <= 9999 ->
  getTodayDateString now = Spec.date_string now.
Proof.
  intros Hy. unfold getTodayDateString, JSDate.slice0, JSDate.toISOString,
    Spec.date_string, Spec.ymd, JSDate.year_string.
  replace ((0 <=? JSDate.YearFromTime now) && (JSDate.YearFromTime now <=? 9999))
    with true by (symmetry; apply andb_true_iff; split; apply Z.leb_le; lia).
  set (y := JSDate.pad 4 _). set (m := JSDate.pad 2 _). set (d := JSDate.pad 2 _).
  set (rest := "T" +:+ _).
  replace (y +:+ "-" +:+ m +:+ "-" +:+ d +:+ rest)
    with ((y +:+ "-" +:+ m +:+ "-" +:+ d) +:+ rest)
    by (rewrite !string_app_assoc; reflexivity).
  replace 10%nat with (String.length (y +:+ "-" +:+ m +:+ "-" +:+ d)).
  - apply substring_app_exact.
  - rewrite !string_length_app. unfold y, m, d. rewrite !pad_length. reflexivity.
Qed.

(** So it is the current date where local time and UTC are on the same
    calendar day. *)
Lemma getTodayDateString_same_day tza now :
  0 <= JSDate.YearFromTime now <= 9999 ->
  JSDate.Day (JSDate.LocalTime tza now) = JSDate.Day now ->
  getTodayDateString now = Spec.current_date_string tza now.
Proof.
  intros Hy Hd. rewrite getTodayDateString_utc by assumption.
  unfold Spec.current_date_string, Spec.date_string.
  unfold JSDate.DateFromTime, JSDate.MonthFromTime, JSDate.DayWithinYear,
    JSDate.InLeapYear, JSDate.YearFromTime.
  rewrite Hd. reflexivity.
Qed.

(** Past the year 9999 the ISO text starts with a sign and six digits of
    year, and its first ten characters stop inside the month. *)
Example getTodayDateString_year_10000 :
  getTodayDateString Samples.year_10000 = "+010000-01".
Proof. reflexivity. Qed.

(** C2.  In New York on the evening of 31 January 2024 the clock reads
    2024-02-01T01:00Z: the record [addExpense] inserts is dated 2024-02-01,
    while the current date there is 2024-01-31. *)
Theorem C2_new_record_gets_utc_date :
  let s := addExpense Samples.wednesday_evening (Samples.form "12.50" "Food" "lunch") in
  map date (rows (db s)) = [Some "2024-02-01"]
  /\ Spec.current_date_string Samples.utc_minus_5 Samples.wednesday_evening = "2024-01-31".
Proof. vm_compute. split; reflexivity. Qed.

(** ** Edits *)

(** C8.  A [saveEdit] that passes validation, for a remembered id that is the
    id of the stored row [r], replaces that row by one with the new amount,
    category and note and with the id and the date of [r]; every other row
    of the table is as before; and the reloaded list has exactly one row
    with that id. *)
Theorem C8_saveEdit_rewrites_one_row (s : State) (k : nat) (r : Expense) :
  wf (db s) ->
  rows (db s) !! k = Some r ->
  editingId s = Some (id r) ->
  JS.gt_zero (JS.parseFloat (amount s)) = true ->
  JS.trim (category s) <> "" ->
  let r' := Spec.edited (JS.parseFloat (amount s)) (JS.trim (category s))
                        (or_null (JS.trim (note s))) r in
  rows (db (saveEdit s)) = <[k := r']> (rows (db s))
  /\ date r' = date r
  /\ id r' = id r
  /\ List.filter (fun x => id x =? id r) (expenses (saveEdit s)) = [r'].
Proof.
  intros [Hnd Hb] Hk He Hpos Hcat r'.
  assert (Hin : r ∈ rows (db s)) by (eapply list_elem_of_lookup_2; eassumption).
  assert (Hid : id r <> 0).
  { rewrite Forall_forall in Hb. specialize (Hb r Hin). lia. }
  destruct (saveEdit_valid s (id r) Hpos Hcat He Hid) as [Hdb Hex].
  set (f := fun x : Expense => if id x =? id r then _ else x) in *.
  assert (Hf : forall x, id x <> id r -> f x = x).
  { intros x Hx. unfold f. apply Z.eqb_neq in Hx. now rewrite Hx. }
  assert (Hr : f r = r') by (unfold f; now rewrite Z.eqb_refl).
  assert (Hrows : map f (rows (db s)) = <[k := r']> (rows (db s))).
  { rewrite <- Hr. apply map_update_insert; assumption. }
  rewrite Hdb, Hex. simpl. rewrite Hrows.
  split; [reflexivity|]. split; [reflexivity|]. split; [reflexivity|].
  assert (Hlt : (k < length (rows (db s)))%nat) by (eapply lookup_lt_Some; eassumption).
  assert (Hk' : <[k := r']> (rows (db s)) !! k = Some r')
    by (apply list_lookup_insert_eq; assumption).
  assert (Hnd' : NoDup (map id (<[k := r']> (rows (db s))))).
  { rewrite <- Hrows. unfold f. unfold Spec.edited.
    rewrite (update_ids _ _ _ (id r)). assumption. }
  pose proof (filter_id_unique _ k r' Hnd' Hk') as Hu. simpl in Hu.
  pose proof (filter_Permutation (fun x => id x =? id r) _ _
                (list_all_perm (mkDb (<[k := r']> (rows (db s))) (seq (db s))))) as Hp.
  simpl in Hp. rewrite Hu in Hp.
  apply Permutation_singleton_r in Hp. exact Hp.
Qed.

Lemma C8_saveEdit_rewrites_one_row_witness :
  let s := Samples.editing "25.00" "Food" "" in
  let r := Samples.row 1 "10.00" "Food" "2024-01-29" in
  let r' := Spec.edited (JS.parseFloat (amount s)) (JS.trim (category s))
                        (or_null (JS.trim (note s))) r in
  (wf (db s) /\ rows (db s) !! 0%nat = Some r /\ editingId s = Some (id r)
   /\ JS.gt_zero (JS.parseFloat (amount s)) = true /\ JS.trim (category s) <> "")
  /\ (rows (db (saveEdit s)) = <[0%nat := r']> (rows (db s))
      /\ date r' = date r
      /\ id r' = id r
      /\ List.filter (fun x => id x =? id r) (expenses (saveEdit s)) = [r']).
Proof.
  assert (Hwf : wf (db (Samples.editing "25.00" "Food" ""))).
  { split; simpl.
    - apply NoDup_singleton.
    - constructor; [simpl; lia | constructor]. }
  assert (Hc : JS.trim (category (Samples.editing "25.00" "Food" "")) <> "")
    by (vm_compute; discriminate).
  split.
  - split; [exact Hwf|]. split; [reflexivity|]. split; [reflexivity|].
    split; [vm_compute; reflexivity | exact Hc].
  - apply (C8_saveEdit_rewrites_one_row (Samples.editing "25.00" "Food" "") 0
             (Samples.row 1 "10.00" "Food" "2024-01-29") Hwf).
    + reflexivity.
    + reflexivity.
    + vm_compute. reflexivity.
    + exact Hc.
Defined.

(** ** The order of the loaded list *)

(** C9.  Whatever the user does after the component has mounted, the list
    in memory is the one [loadExpenses] reads from the table as it then is:
    it holds every stored record, and it is ordered by date descending,
    records of one date by id descending. *)
Theorem C9_loaded_list_is_sorted (d : Db) (es : list Event) :
  let s := run (setup d) es in
  expenses s = list_all (db s)
  /\ expenses s ≡ₚ rows (db s)
  /\ StronglySorted precedes (expenses s).
Proof.
  intros s.
  assert (H : Spec.loaded s) by (apply run_loaded, loadExpenses_loaded).
  unfold Spec.loaded in H. rewrite H.
  split; [reflexivity|]. split; [apply list_all_perm | apply list_all_sorted].
Qed.

End HandlerProps.

(* ===================================================================== *)
(** * The filters and the totals *)
(* ===================================================================== *)

Module EngineProps.

Import Store Screen Engine.
Import JS (SameValueZero).
Import Spec (agree, key_step, reset_sum).

(** ** Sums of amounts *)

Lemma agree_SameValueZero c s : agree c s -> SameValueZero c s.
Proof.
  intros [-> | [-> H]]; [left; reflexivity | right; split; [reflexivity | exact H]].
Qed.

Ltac zero_cases_all :=
  repeat match goal with
         | H : PrimFloat.is_zero ?x = true |- _ =>
             destruct (FloatFacts.zero_cases x H) as [-> | ->]; clear H
         end.

Ltac by_evaluation :=
  first [ left; reflexivity | right; split; reflexivity ].

Lemma amount_of_agree e :
  agree (amount_of e) (Spec.numeric_amount e).
Proof.
  unfold amount_of, Spec.numeric_amount, JS.or_zero, JS.truthy, JS.isNaN.
  destruct (PrimFloat.is_nan _) eqn:En; simpl; [left; reflexivity|].
  destruct (PrimFloat.is_zero _) eqn:Ez; simpl; [right; auto | left; reflexivity].
Qed.

Lemma agree_add c s a a' :
  agree c s -> agree a a' -> agree (PrimFloat.add c a) (PrimFloat.add s a').
Proof.
  unfold agree, JS.zero.
  intros [-> | [-> Hs]] [-> | [-> Ha]].
  - left; reflexivity.
  - destruct (PrimFloat.is_zero s) eqn:Ez.
    + zero_cases_all; by_evaluation.
    + left. rewrite !FloatFacts.add_zero_r by (assumption || reflexivity).
      reflexivity.
  - destruct (PrimFloat.is_zero a') eqn:Ez.
    + zero_cases_all; by_evaluation.
    + left. rewrite !FloatFacts.add_zero_l by (assumption || reflexivity).
      reflexivity.
  - zero_cases_all; by_evaluation.
Qed.

Lemma overallTotal_agree l : forall c s,
  agree c s ->
  agree (fold_left (fun sum e => PrimFloat.add sum (amount_of e)) l c)
        (fold_left PrimFloat.add (map Spec.numeric_amount l) s).
Proof.
  induction l as [|e l IH]; intros c s H; simpl; [exact H|].
  apply IH, agree_add; [exact H | apply amount_of_agree].
Qed.

Lemma overallTotal_sum l : SameValueZero (overallTotal l) (Spec.sum_amounts l).
Proof.
  apply agree_SameValueZero, overallTotal_agree. left; reflexivity.
Qed.

(** C6.  The overall total is the sum of the amounts of the filtered
    records, an amount that is not numeric counting as zero; the two are the
    same number (a [NaN] total goes with a [NaN] sum, and the sign of a zero
    is not told apart).  Over no records the total is 0. *)
Theorem C6_overallTotal_is_sum_of_amounts (filtered : list Expense) :
  SameValueZero (overallTotal filtered) (Spec.sum_amounts filtered)
  /\ overallTotal [] = JS.zero.
Proof. split; [apply overallTotal_sum | reflexivity]. Qed.

(** C7.  Under [All] the filtered list is the loaded list itself, in its
    order, so the overall total is the sum of the amounts of all records. *)
Theorem C7_all_filter_is_identity (tza now : Z) (expenses : list Expense) :
  filteredExpenses tza now All expenses = expenses
  /\ SameValueZero (overallTotal (filteredExpenses tza now All expenses))
                   (Spec.sum_amounts expenses).
Proof. split; [reflexivity | apply overallTotal_sum]. Qed.

(** ** The category totals, key by key *)

Lemma add_expense_lookup m e c : add_expense m e !! c = key_step c (m !! c) e.
Proof.
  unfold add_expense, key_step.
  destruct (decide (category_of e = c)) as [<- | Hne].
  - destruct (m !! category_of e) as [[v|]|] eqn:E.
    + apply lookup_insert_eq.
    + apply lookup_insert_eq.
    + destruct (inherited (category_of e)); rewrite ?lookup_insert_eq; auto.
  - destruct (m !! category_of e) as [[v|]|] eqn:E.
    + apply lookup_insert_ne, Hne.
    + apply lookup_insert_ne, Hne.
    + destruct (inherited (category_of e)); rewrite ?lookup_insert_ne; auto.
Qed.

Lemma fold_add_expense_lookup l c : forall m,
  fold_left add_expense l m !! c = fold_left (key_step c) l (m !! c).
Proof.
  induction l as [|e l IH]; intros m; simpl; [reflexivity|].
  rewrite IH, add_expense_lookup. reflexivity.
Qed.

Lemma categoryTotals_lookup l c :
  categoryTotals l !! c = fold_left (key_step c) l None.
Proof. unfold categoryTotals. rewrite fold_add_expense_lookup. reflexivity. Qed.

Lemma key_fold_num c l : forall v,
  fold_left (key_step c) l (Some (TNum v))
  = Some (TNum (reset_sum (map amount_of (Spec.of_category c l)) v)).
Proof.
  induction l as [|e l IH]; intros v; simpl; [reflexivity|].
  unfold key_step at 2. unfold Spec.of_category. simpl.
  destruct (decide (category_of e = c)) as [E | N].
  - rewrite (bool_decide_eq_true_2 _ E). simpl. apply IH.
  - rewrite (bool_decide_eq_false_2 _ N). apply IH.
Qed.

Lemma key_fold_none c l :
  inherited c = Absent ->
  fold_left (key_step c) l None
  = match map amount_of (Spec.of_category c l) with
    | [] => None
    | a :: g => Some (TNum (reset_sum g (PrimFloat.add JS.zero a)))
    end.
Proof.
  intros Hc. induction l as [|e l IH]; simpl; [reflexivity|].
  unfold key_step at 2. unfold Spec.of_category. simpl.
  destruct (decide (category_of e = c)) as [E | N].
  - rewrite (bool_decide_eq_true_2 _ E). simpl. rewrite Hc. apply key_fold_num.
  - rewrite (bool_decide_eq_false_2 _ N). apply IH.
Qed.

Lemma key_fold_absent c l :
  ~ In c (map category_of l) -> fold_left (key_step c) l None = None.
Proof.
  induction l as [|e l IH]; simpl; [reflexivity|].
  intros Hn. unfold key_step at 2.
  destruct (decide (category_of e = c)) as [E | N]; [tauto|].
  apply IH. tauto.
Qed.

Lemma of_category_nil c l :
  ~ In c (map category_of l) -> Spec.of_category c l = [].
Proof.
  induction l as [|e l IH]; simpl; [reflexivity|].
  intros Hn. unfold Spec.of_category. simpl.
  rewrite bool_decide_eq_false_2 by tauto. apply IH. tauto.
Qed.

Lemma of_category_cons c l :
  In c (map category_of l) -> Spec.of_category c l <> [].
Proof.
  induction l as [|e l IH]; simpl; [tauto|].
  unfold Spec.of_category. simpl.
  destruct (decide (category_of e = c)) as [E | N].
  - rewrite (bool_decide_eq_true_2 _ E). discriminate.
  - rewrite (bool_decide_eq_false_2 _ N). intros [? | H]; [tauto | apply IH, H].
Qed.

(** ** The running total of a key and the plain sum *)

Lemma sum_not_nan l : forall acc,
  PrimFloat.is_nan (fold_left PrimFloat.add l acc) = false ->
  PrimFloat.is_nan acc = false.
Proof.
  induction l as [|a l IH]; intros acc H; simpl in *; [exact H|].
  eapply FloatFacts.add_not_nan. apply IH. exact H.
Qed.

Lemma reset_sum_plain l : forall acc,
  Forall (fun a => a <> PrimFloat.neg_zero) l ->
  PrimFloat.is_nan (fold_left PrimFloat.add l acc) = false ->
  reset_sum l acc = fold_left PrimFloat.add l acc.
Proof.
  unfold reset_sum.
  induction l as [|a l IH]; intros acc Hl Hn; simpl in *; [reflexivity|].
  apply Forall_cons in Hl as [Ha Hl].
  rewrite FloatFacts.add_or_zero.
  - apply IH; assumption.
  - eapply FloatFacts.add_not_nan, sum_not_nan. exact Hn.
  - exact Ha.
Qed.

Lemma amounts_not_neg_zero l :
  Forall (fun a => a <> PrimFloat.neg_zero) (map amount_of l).
Proof.
  apply Forall_forall. intros a Ha.
  apply list_elem_of_In, in_map_iff in Ha as [e [<- _]].
  apply FloatFacts.or_zero_not_neg_zero.
Qed.

(** Where the code agrees with the specification's category totals: at a
    key that names no property of [Object.prototype], as long as the sum of
    the key's amounts is not [NaN]. *)
Lemma categoryTotals_regular l c :
  inherited c = Absent ->
  (forall x, Spec.category_total l c = Some x -> PrimFloat.is_nan x = false) ->
  categoryTotals l !! c = TNum <$> Spec.category_total l c.
Proof.
  intros Hc Hn. rewrite categoryTotals_lookup. unfold Spec.category_total in *.
  destruct (decide (c ∈ map category_of l)) as [Hin | Hout].
  - rewrite key_fold_none by exact Hc. simpl.
    specialize (Hn _ eq_refl).
    pose proof (amounts_not_neg_zero (Spec.of_category c l)) as Hz.
    apply list_elem_of_In, of_category_cons in Hin.
    destruct (Spec.of_category c l) as [|e g]; [congruence|].
    simpl in *. apply Forall_cons in Hz as [_ Hz].
    unfold Spec.sum in *. simpl in *.
    rewrite reset_sum_plain by assumption. reflexivity.
  - rewrite key_fold_absent; [reflexivity|].
    rewrite <- list_elem_of_In. exact Hout.
Qed.

(** C5.  A record whose category is [constructor] finds the function that
    [Object.prototype] holds under that name in [totals], so [+=] makes a
    text of it instead of the sum 12.5; a record whose category is
    [__proto__] leaves no entry at all. *)
Theorem C5_inherited_names_break_the_totals :
  let l := [ Samples.row 1 "12.50" "constructor" "2024-01-29";
             Samples.row 2 "5.00" "__proto__" "2024-01-29" ] in
  categoryTotals l !! "constructor" = Some TText
  /\ Spec.category_total l "constructor" = Some (JS.parseFloat "12.5")
  /\ categoryTotals l !! "__proto__" = None
  /\ Spec.category_total l "__proto__" = Some (JS.parseFloat "5").
Proof. vm_compute. repeat split; reflexivity. Qed.

Lemma categoryTotals_present l c :
  inherited c = Absent ->
  is_Some (categoryTotals l !! c) <-> In c (map category_of l).
Proof.
  intros Hc. rewrite categoryTotals_lookup. split.
  - intros Hs. destruct (in_dec string_dec c (map category_of l)) as [H | H]; [exact H|].
    rewrite key_fold_absent in Hs by exact H. destruct Hs as [x Hx]. discriminate.
  - intros Hin. rewrite key_fold_none by exact Hc.
    apply of_category_cons in Hin.
    destruct (Spec.of_category c l) as [|e g]; [congruence|]. simpl. eauto.
Qed.

(** Two lunches on one day: 12.50 and 5.00 for food add up to 17.50, overall
    and in the one category. *)
Example two_lunches_totals :
  overallTotal Samples.two_lunches = JS.parseFloat "17.50"
  /\ categoryTotals Samples.two_lunches = {[ "Food" := TNum (JS.parseFloat "17.50") ]}.
Proof.
  split; [reflexivity|]. apply map_eq. intros k. rewrite categoryTotals_lookup.
  destruct (decide (k = "Food")) as [-> | Hk]; [reflexivity|].
  rewrite lookup_singleton_ne by (intros <-; apply Hk; reflexivity).
  apply key_fold_absent.
  replace (map category_of Samples.two_lunches) with ["Food"; "Food"]
    by (vm_compute; reflexivity).
  simpl. intros [E | [E | []]]; symmetry in E; contradiction.
Qed.

(** ** The week and the month *)

(** C3.  In New York on Monday 2024-01-29 at 10:00 both the clock of
    [addExpense] and the local calendar say 2024-01-29.  The week of that
    day is Monday 01-29 to Sunday 02-04, but the [Week] filter drops the
    record dated today and keeps the one dated Monday 02-05: a date text is
    read as midnight UTC, which is the evening before in local time, and is
    then set back to local midnight. *)
Theorem C3_week_filter_is_a_day_off_west_of_utc :
  let tza := Samples.utc_minus_5 in
  let now := Samples.monday_morning in
  getTodayDateString now = "2024-01-29"
  /\ Spec.current_date_string tza now = "2024-01-29"
  /\ map id (filteredExpenses tza now Week Samples.around_the_week) = [3; 4]
  /\ map id (List.filter (Spec.in_current_week tza now) Samples.around_the_week) = [2; 3].
Proof. vm_compute. repeat split; reflexivity. Qed.

(** C4.  At the same place and time the current month is January 2024, but
    the [Month] filter drops the record dated 2024-01-01 and keeps the one
    dated 2024-02-01, for the same reason. *)
Theorem C4_month_filter_is_a_day_off_west_of_utc :
  let tza := Samples.utc_minus_5 in
  let now := Samples.monday_morning in
  Spec.current_date_string tza now = "2024-01-29"
  /\ map id (filteredExpenses tza now Month Samples.around_the_month) = [3; 4]
  /\ map id (List.filter (Spec.in_current_month tza now) Samples.around_the_month) = [2; 3].
Proof. vm_compute. repeat split; reflexivity. Qed.

(** ** The overall total against the category totals *)







End EngineProps.

(* ===================================================================== *)
(** * A record added now shows in this week and this month, where local
      time is not behind UTC and both are on the same day *)
(* ===================================================================== *)

Module Scenarios.

Import Store Screen Engine JSDate DateFacts StoreFacts ScreenFacts.

Section AddedToday.

Variables tza now : Z.
Variable s : State.

Hypothesis zone : 0 <= tza < msPerDay.
Hypothesis clock : Spec.clock_in_range now.
Hypothesis four_digit_year : 0 <= YearFromTime now <= 9999.
Hypothesis same_day : Day (LocalTime tza now) = Day now.
Hypothesis amount_ok : JS.gt_zero (JS.parseFloat (amount s)) = true.
Hypothesis category_ok : JS.trim (category s) <> "".

Local Abbreviation added := (Spec.added now s).

Lemma added_is_loaded : In added (expenses (addExpense now s)).
Proof.
  destruct (addExpense_valid now s amount_ok category_ok) as [_ ->].
  apply list_elem_of_In. rewrite list_all_perm. simpl.
  apply elem_of_app. right. apply list_elem_of_here.
Qed.

Lemma added_day : Spec.record_day added = Some (Day now).
Proof.
  unfold Spec.record_day, Spec.added. simpl.
  rewrite HandlerProps.getTodayDateString_utc by exact four_digit_year.
  rewrite parse_date_string by exact four_digit_year.
  simpl. rewrite Day_MakeDate by (unfold msPerDay; lia). reflexivity.
Qed.

Lemma zone_lt_day : Z.abs tza < msPerDay.
Proof. lia. Qed.

Lemma added_in_week :
  In added (filteredExpenses tza now Week (expenses (addExpense now s))).
Proof.
  rewrite (FilterFacts.week_filter_east tza now zone_lt_day clock) by lia.
  apply List.filter_In. split; [apply added_is_loaded|].
  unfold Spec.in_current_week. rewrite added_day.
  pose proof (FilterFacts.monday_range tza now) as Hm.
  unfold Spec.current_day in Hm. rewrite same_day in Hm.
  apply andb_true_iff. split; apply Z.leb_le; lia.
Qed.

Lemma added_in_month :
  In added (filteredExpenses tza now Month (expenses (addExpense now s))).
Proof.
  rewrite (FilterFacts.month_filter_east tza now zone_lt_day clock) by lia.
  apply List.filter_In. split; [apply added_is_loaded|].
  unfold Spec.in_current_month. rewrite added_day.
  rewrite <- same_day, <- YearFromTime_day, <- MonthFromTime_day.
  rewrite !Z.eqb_refl. reflexivity.
Qed.

End AddedToday.

End Scenarios.

(* ===================================================================== *)
(** * More about the handlers: trimming, written rows, row ids *)
(* ===================================================================== *)

Module MoreFacts.

Import Store Screen StoreFacts ScreenFacts.
Import Spec (valid_rows, since).

(** ** [trim] is idempotent *)

Lemma trimStart_idem l : JS.trimStart_list (JS.trimStart_list l) = JS.trimStart_list l.
Proof.
  induction l as [|a l IH]; simpl; [reflexivity|].
  destruct (JS.is_ws a) eqn:E; [exact IH|]. simpl. now rewrite E.
Qed.

Lemma trimStart_split l :
  exists w, l = w ++ JS.trimStart_list l /\ Forall (fun a => JS.is_ws a = true) w.
Proof.
  induction l as [|a l [w [Hl Hw]]]; simpl.
  - exists []. split; [reflexivity | constructor].
  - destruct (JS.is_ws a) eqn:E.
    + exists (a :: w). split; [simpl; now rewrite <- Hl | constructor; assumption].
    + exists []. split; [reflexivity | constructor].
Qed.

Lemma trimStart_fixed_head a l :
  JS.trimStart_list (a :: l) = a :: l -> JS.is_ws a = false.
Proof.
  simpl. destruct (JS.is_ws a) eqn:E; [|reflexivity].
  intros H. exfalso.
  destruct (trimStart_split l) as [w [Hl _]].
  apply (f_equal (@length _)) in Hl. apply (f_equal (@length _)) in H.
  rewrite length_app in Hl. simpl in H. lia.
Qed.

Lemma trim_list_idem l : JS.trim_list (JS.trim_list l) = JS.trim_list l.
Proof.
  unfold JS.trim_list.
  set (l1 := JS.trimStart_list l).
  set (r := JS.trimStart_list (rev l1)).
  assert (H1 : JS.trimStart_list (rev r) = rev r).
  { destruct (trimStart_split (rev l1)) as [w [Hl _]]. fold r in Hl.
    apply (f_equal (@rev _)) in Hl. rewrite rev_involutive, rev_app_distr in Hl.
    destruct (rev r) as [|a t] eqn:Er; [reflexivity|].
    simpl in Hl.
    assert (Ha : JS.is_ws a = false).
    { apply (trimStart_fixed_head a (t ++ rev w)). rewrite <- Hl.
      unfold l1. apply trimStart_idem. }
    simpl. now rewrite Ha. }
  rewrite H1, rev_involutive. unfold r. rewrite trimStart_idem. reflexivity.
Qed.

Lemma trim_idem s : JS.trim (JS.trim s) = JS.trim s.
Proof.
  unfold JS.trim. rewrite list_ascii_of_string_of_list_ascii, trim_list_idem.
  reflexivity.
Qed.

(** ** The validation, as the handlers use it *)

Lemma amount_accepted x :
  JS.isNaN x || JS.le_zero x = false <-> JS.gt_zero x = true.
Proof.
  rewrite FloatFacts.amount_check_spec. destruct (JS.gt_zero x); simpl; split; congruence.
Qed.

Lemma or_null_cases t :
  (or_null t = None /\ t = "") \/ (or_null t = Some t /\ t <> "").
Proof. unfold or_null. destruct t; simpl; [left | right]; split; congruence. Qed.

(** A row made of validated form fields is as the handlers write rows. *)
Lemma written_row_valid i a c n d :
  JS.gt_zero a = true -> JS.trim c <> "" ->
  Spec.valid_row (mkExpense i (JS.VNum a) (Some (JS.trim c)) (or_null (JS.trim n)) d)
  <-> is_Some d.
Proof.
  intros Ha Hc. unfold Spec.valid_row. simpl. destruct d as [d|]; simpl.
  - split; [eauto|]. intros _. split; [exact Ha|]. split; [exact Hc|].
    split; [apply trim_idem|].
    destruct (or_null_cases (JS.trim n)) as [[-> _] | [-> Hn]]; [exact I|].
    split; [exact Hn | apply trim_idem].
  - split; [tauto | intros [? ?]; discriminate].
Qed.

Lemma valid_row_date e : Spec.valid_row e -> is_Some (date e).
Proof.
  unfold Spec.valid_row. destruct (Store.amount e), (Store.category e), (date e);
    try tauto. eauto.
Qed.

(** The whole state after a handler whose form passes validation *)
Lemma addExpense_accepts now s :
  JS.gt_zero (JS.parseFloat (amount s)) = true ->
  JS.trim (category s) <> "" ->
  addExpense now s
  = loadExpenses
      (setNote "" (setCategory "" (setAmount ""
         (mkState (mkDb (rows (db s) ++ [Spec.added now s]) (id (Spec.added now s)))
                  (calls s ++ [Insert (JS.parseFloat (amount s)) (JS.trim (category s))
                                      (or_null (JS.trim (note s)))
                                      (getTodayDateString now)])
                  (expenses s) (amount s) (category s) (note s) (filter s)
                  (editingId s))))).
Proof.
  intros Hpos Hcat. unfold addExpense.
  pose proof (proj2 (amount_accepted _) Hpos) as Hg. rewrite Hg.
  apply orb_false_iff in Hg as [Hnan _].
  apply str_truthy_true in Hcat. rewrite Hcat. simpl.
  unfold insert. rewrite Hnan. reflexivity.
Qed.

Lemma saveEdit_accepts s i :
  JS.gt_zero (JS.parseFloat (amount s)) = true ->
  JS.trim (category s) <> "" ->
  editingId s = Some i -> i <> 0 ->
  saveEdit s
  = loadExpenses
      (setNote "" (setCategory "" (setAmount "" (setEditingId None
         (mkState (mkDb (map (fun r =>
                               if id r =? i
                               then Spec.edited (JS.parseFloat (amount s))
                                                (JS.trim (category s))
                                                (or_null (JS.trim (note s))) r
                               else r) (rows (db s)))
                        (seq (db s)))
                  (calls s ++ [Update (JS.parseFloat (amount s)) (JS.trim (category s))
                                      (or_null (JS.trim (note s))) i])
                  (expenses s) (amount s) (category s) (note s) (filter s)
                  (editingId s)))))).
Proof.
  intros Hpos Hcat He Hi. unfold saveEdit.
  pose proof (proj2 (amount_accepted _) Hpos) as Hg. rewrite Hg.
  apply orb_false_iff in Hg as [Hnan _].
  apply str_truthy_true in Hcat. rewrite Hcat. simpl.
  rewrite He. simpl. apply Z.eqb_neq in Hi. rewrite Hi.
  unfold update. rewrite Hnan. reflexivity.
Qed.

(** ** What a statement does to ids and dates *)

Lemma update_dates a c n i l :
  map date (map (fun r => if id r =? i
                          then mkExpense (id r) (JS.VNum a) (Some c) n (date r)
                          else r) l) = map date l.
Proof.
  induction l as [|r l IH]; simpl; [reflexivity|].
  rewrite IH. destruct (id r =? i); reflexivity.
Qed.

Lemma delete_position l : forall k r,
  NoDup (map id l) -> l !! k = Some r ->
  List.filter (fun x => negb (id x =? id r)) l = base.delete k l.
Proof.
  induction l as [|r0 l IH]; intros k r Hnd Hk; [discriminate|].
  simpl in Hnd. apply NoDup_cons in Hnd as [Hni Hnd].
  destruct k as [|k]; simpl in *.
  - injection Hk as ->. rewrite Z.eqb_refl. simpl.
    clear IH Hnd. induction l as [|x l IH]; simpl; [reflexivity|].
    destruct (id x =? id r) eqn:E; simpl.
    + apply Z.eqb_eq in E. exfalso. apply Hni. rewrite <- E. simpl. left.
    + f_equal. apply IH. intros H. apply Hni. simpl. right. exact H.
  - destruct (id r0 =? id r) eqn:E; simpl.
    + apply Z.eqb_eq in E. exfalso. apply Hni. rewrite E.
      apply list_elem_of_In, in_map, list_elem_of_In.
      eapply list_elem_of_lookup_2. eassumption.
    + f_equal. eapply IH; eassumption.
Qed.

Lemma filter_sublist {A} (p : A -> bool) l : List.filter p l `sublist_of` l.
Proof.
  induction l as [|x l IH]; simpl; [constructor|].
  destruct (p x); [apply sublist_skip | apply sublist_cons]; exact IH.
Qed.

(** ** Rows stay as the handlers write them *)

Lemma addExpense_valid_rows now s : valid_rows s -> valid_rows (addExpense now s).
Proof.
  unfold valid_rows. intros H. unfold addExpense.
  destruct (JS.isNaN _ || JS.le_zero _) eqn:Ea; [exact H|].
  destruct (JS.str_truthy (JS.trim (category s))) eqn:Ec; simpl; [|exact H].
  apply amount_accepted in Ea. apply str_truthy_true in Ec.
  unfold insert. destruct (JS.isNaN _); simpl; [exact H|].
  apply Forall_app. split; [exact H|]. constructor; [|constructor].
  apply written_row_valid; eauto.
Qed.

Lemma saveEdit_valid_rows s : valid_rows s -> valid_rows (saveEdit s).
Proof.
  unfold valid_rows. intros H. unfold saveEdit.
  destruct (JS.isNaN _ || JS.le_zero _) eqn:Ea; [exact H|].
  destruct (JS.str_truthy (JS.trim (category s))) eqn:Ec; simpl; [|exact H].
  destruct (no_editingId _); [exact H|].
  destruct (editingId s) as [i|]; [|exact H].
  apply amount_accepted in Ea. apply str_truthy_true in Ec.
  unfold update. destruct (JS.isNaN _); simpl; [exact H|].
  rewrite Forall_forall in H. apply Forall_forall. intros r Hr.
  apply list_elem_of_In, in_map_iff in Hr as [r0 [<- Hr0]].
  apply list_elem_of_In in Hr0. specialize (H r0 Hr0).
  destruct (id r0 =? i); [|exact H].
  apply written_row_valid; eauto using valid_row_date.
Qed.

Lemma deleteExpense_valid_rows i s : valid_rows s -> valid_rows (deleteExpense i s).
Proof.
  unfold valid_rows. intros H. simpl.
  rewrite Forall_forall in H. apply Forall_forall. intros r Hr. apply H.
  apply list_elem_of_In. apply list_elem_of_In, delete_In in Hr. tauto.
Qed.

Lemma step_valid_rows s e : valid_rows s -> valid_rows (step s e).
Proof.
  intros H. destruct e; simpl; try exact H.
  - destruct (no_editingId _);
      [apply addExpense_valid_rows | apply saveEdit_valid_rows]; exact H.
  - destruct (no_editingId _); exact H.
  - apply deleteExpense_valid_rows, H.
Qed.

Lemma run_valid_rows es : forall s, valid_rows s -> valid_rows (run s es).
Proof.
  induction es as [|e es IH]; intros s H; simpl; [exact H|].
  apply IH, step_valid_rows, H.
Qed.

(** ** Row ids are not handed out twice *)

Lemma addExpense_since s0 now s : since s0 s -> since s0 (addExpense now s).
Proof.
  intros [Hs Hr]. unfold addExpense.
  destruct (JS.isNaN _ || JS.le_zero _); [split; assumption|].
  destruct (negb _); [split; assumption|].
  simpl. unfold insert. destruct (JS.isNaN _); simpl; [split; assumption|].
  split; simpl; [lia|]. intros r Hin. apply in_app_or in Hin as [Hin | [<- | []]].
  - apply Hr, Hin.
  - right. simpl. lia.
Qed.

Lemma saveEdit_since s0 s : since s0 s -> since s0 (saveEdit s).
Proof.
  intros [Hs Hr]. unfold saveEdit.
  destruct (JS.isNaN _ || JS.le_zero _); [split; assumption|].
  destruct (negb _); [split; assumption|].
  destruct (no_editingId _); [split; assumption|].
  destruct (editingId s) as [i|]; [|split; assumption].
  simpl. unfold update. destruct (JS.isNaN _); simpl; [split; assumption|].
  split; simpl; [exact Hs|]. intros r Hin.
  apply in_map_iff in Hin as [r0 [<- Hr0]]. specialize (Hr r0 Hr0).
  destruct (id r0 =? i); exact Hr.
Qed.

Lemma step_since s0 s e : since s0 s -> since s0 (step s e).
Proof.
  intros H. destruct e; simpl; try exact H.
  - destruct (no_editingId _); [apply addExpense_since | apply saveEdit_since]; exact H.
  - destruct (no_editingId _); exact H.
  - destruct H as [Hs Hr]. split; [exact Hs|]. simpl. intros r Hin.
    apply delete_In in Hin as [Hin _]. apply Hr, Hin.
Qed.

Lemma run_since s0 es : forall s, since s0 s -> since s0 (run s es).
Proof.
  induction es as [|e es IH]; intros s H; simpl; [exact H|].
  apply IH, step_since, H.
Qed.

Lemma since_refl s : since s s.
Proof.
  split; [lia|]. intros r Hr. left. apply in_map, Hr.
Qed.

End MoreFacts.

(* ===================================================================== *)
(** * Further properties of the handlers *)
(* ===================================================================== *)

Module HandlerExtras.

Import Store Screen StoreFacts ScreenFacts MoreFacts.

Lemma one_row_wf : wf Samples.one_row.
Proof.
  split; simpl; [apply NoDup_singleton | constructor; [simpl; lia | constructor]].
Qed.

Lemma db_eta d : mkDb (rows d) (seq d) = d.
Proof. destruct d; reflexivity. Qed.

(** X1.  [deleteExpense] of an id that no row has runs the DELETE and the
    reload, and leaves the table as it was. *)
Theorem X1_delete_of_absent_id (i : Z) (s : State) :
  ~ In i (map id (rows (db s))) ->
  db (deleteExpense i s) = db s
  /\ calls (deleteExpense i s) = calls s ++ [Delete i; SelectAll]
  /\ expenses (deleteExpense i s) = list_all (db s).
Proof.
  intros H.
  assert (E : db (deleteExpense i s) = db s).
  { simpl. unfold delete. fold (delete i (db s)).
    pose proof (delete_absent i (db s) H) as Hr. unfold delete in *. simpl in Hr.
    rewrite Hr. apply db_eta. }
  split; [exact E|]. split.
  - simpl. rewrite <- app_assoc. reflexivity.
  - change (expenses (deleteExpense i s)) with (list_all (db (deleteExpense i s))).
    now rewrite E.
Qed.

Lemma X1_delete_of_absent_id_witness :
  let s := setup Samples.one_row in
  ~ In 7 (map id (rows (db s)))
  /\ (db (deleteExpense 7 s) = db s
      /\ calls (deleteExpense 7 s) = calls s ++ [Delete 7; SelectAll]
      /\ expenses (deleteExpense 7 s) = list_all (db s)).
Proof.
  assert (H : ~ In 7 (map id (rows (db (setup Samples.one_row))))).
  { simpl. intros [E | []]. discriminate. }
  split; [exact H | apply (X1_delete_of_absent_id 7 (setup Samples.one_row) H)].
Defined.

(** X2.  On a table with distinct ids, [deleteExpense] of the id of the
    row at position [k] removes that row and no other; the rows that stay
    keep their order. *)
Theorem X2_delete_removes_one_row (s : State) (k : nat) (r : Expense) :
  wf (db s) ->
  rows (db s) !! k = Some r ->
  rows (db (deleteExpense (id r) s)) = base.delete k (rows (db s))
  /\ S (length (rows (db (deleteExpense (id r) s)))) = length (rows (db s)).
Proof.
  intros [Hnd _] Hk.
  assert (E : rows (db (deleteExpense (id r) s)) = base.delete k (rows (db s))).
  { simpl. apply delete_position; assumption. }
  split; [exact E|]. rewrite E. rewrite length_delete by (rewrite Hk; eauto).
  apply lookup_lt_Some in Hk. lia.
Qed.

Lemma X2_delete_removes_one_row_witness :
  let s := setup Samples.one_row in
  let r := Samples.row 1 "10.00" "Food" "2024-01-29" in
  (wf (db s) /\ rows (db s) !! 0%nat = Some r)
  /\ (rows (db (deleteExpense (id r) s)) = base.delete 0%nat (rows (db s))
      /\ S (length (rows (db (deleteExpense (id r) s)))) = length (rows (db s))).
Proof.
  split.
  - split; [exact one_row_wf | reflexivity].
  - apply (X2_delete_removes_one_row (setup Samples.one_row) 0
             (Samples.row 1 "10.00" "Food" "2024-01-29") one_row_wf).
    reflexivity.
Defined.

(** X3.  Whatever the id and whatever the table, after [deleteExpense] of
    [i] the table holds the rows it held with an id other than [i], in
    their order, and the loaded list holds the same rows. *)
Theorem X3_delete_leaves_the_other_rows (i : Z) (s : State) :
  rows (db (deleteExpense i s)) `sublist_of` rows (db s)
  /\ (forall r, In r (rows (db (deleteExpense i s))) <-> In r (rows (db s)) /\ id r <> i)
  /\ (forall r, In r (expenses (deleteExpense i s)) <-> In r (rows (db s)) /\ id r <> i).
Proof.
  assert (H : forall r, In r (rows (db (deleteExpense i s)))
                        <-> In r (rows (db s)) /\ id r <> i).
  { intros r. simpl. apply delete_In. }
  split; [|split; [exact H|]].
  - simpl. apply filter_sublist.
  - intros r. rewrite <- H.
    change (expenses (deleteExpense i s)) with (list_all (db (deleteExpense i s))).
    rewrite <- !list_elem_of_In. rewrite list_all_perm. reflexivity.
Qed.

(** X4.  Without a remembered id ([editingId] is [null] or 0), [saveEdit]
    does nothing at all, also on a form that passes validation. *)
Theorem X4_saveEdit_without_id_is_noop (s : State) :
  no_editingId (editingId s) = true -> saveEdit s = s.
Proof.
  intros H. unfold saveEdit.
  destruct (JS.isNaN _ || JS.le_zero _); [reflexivity|].
  destruct (negb _); [reflexivity|]. now rewrite H.
Qed.

Lemma X4_saveEdit_without_id_is_noop_witness :
  let s := Samples.form "12.50" "Food" "" in
  no_editingId (editingId s) = true /\ saveEdit s = s.
Proof.
  split; [reflexivity|].
  apply (X4_saveEdit_without_id_is_noop (Samples.form "12.50" "Food" "")).
  reflexivity.
Defined.

(** X5.  A [saveEdit] that passes validation for a remembered id that no
    row has runs the UPDATE and the reload, changes no row, and ends the
    edit: the id is forgotten and the form is cleared. *)
Theorem X5_saveEdit_of_absent_id (s : State) (i : Z) :
  JS.gt_zero (JS.parseFloat (amount s)) = true ->
  JS.trim (category s) <> "" ->
  editingId s = Some i -> i <> 0 ->
  ~ In i (map id (rows (db s))) ->
  db (saveEdit s) = db s
  /\ calls (saveEdit s)
     = calls s ++ [Update (JS.parseFloat (amount s)) (JS.trim (category s))
                          (or_null (JS.trim (note s))) i; SelectAll]
  /\ editingId (saveEdit s) = None
  /\ amount (saveEdit s) = "" /\ category (saveEdit s) = "" /\ note (saveEdit s) = "".
Proof.
  intros Hpos Hcat He Hi Hn.
  rewrite (saveEdit_accepts s i Hpos Hcat He Hi). simpl.
  rewrite (map_update_absent _ i) by (try exact Hn; intros r Hr;
    apply Z.eqb_neq in Hr; now rewrite Hr).
  rewrite db_eta, <- app_assoc. repeat split; reflexivity.
Qed.

Lemma X5_saveEdit_of_absent_id_witness :
  let s := Samples.editing_gone "25.00" "Food" "" in
  (JS.gt_zero (JS.parseFloat (amount s)) = true
   /\ JS.trim (category s) <> ""
   /\ editingId s = Some 7 /\ 7 <> 0
   /\ ~ In 7 (map id (rows (db s))))
  /\ (db (saveEdit s) = db s
      /\ calls (saveEdit s)
         = calls s ++ [Update (JS.parseFloat (amount s)) (JS.trim (category s))
                              (or_null (JS.trim (note s))) 7; SelectAll]
      /\ editingId (saveEdit s) = None
      /\ amount (saveEdit s) = "" /\ category (saveEdit s) = ""
      /\ note (saveEdit s) = "").
Proof.
  assert (H1 : JS.gt_zero (JS.parseFloat (amount (Samples.editing_gone "25.00" "Food" ""))) = true)
    by (vm_compute; reflexivity).
  assert (H2 : JS.trim (category (Samples.editing_gone "25.00" "Food" "")) <> "")
    by (vm_compute; discriminate).
  assert (H3 : 7 <> 0) by lia.
  assert (H4 : ~ In 7 (map id (rows (db (Samples.editing_gone "25.00" "Food" ""))))).
  { simpl. intros [E | []]. discriminate. }
  split.
  - split; [exact H1|]. split; [exact H2|]. split; [reflexivity|].
    split; [exact H3 | exact H4].
  - apply (X5_saveEdit_of_absent_id (Samples.editing_gone "25.00" "Food" "") 7
             H1 H2 eq_refl H3 H4).
Defined.

(** X6.  [saveEdit] never adds or removes a row and never changes the id
    or the date of one, whatever the form and the remembered id. *)
Theorem X6_saveEdit_keeps_ids_and_dates (s : State) :
  map id (rows (db (saveEdit s))) = map id (rows (db s))
  /\ map date (rows (db (saveEdit s))) = map date (rows (db s))
  /\ seq (db (saveEdit s)) = seq (db s).
Proof.
  unfold saveEdit.
  destruct (JS.isNaN _ || JS.le_zero _); [auto|].
  destruct (negb _); [auto|].
  destruct (no_editingId _); [auto|].
  destruct (editingId s) as [i|]; [|auto].
  simpl. unfold update. destruct (JS.isNaN _); simpl; [auto|].
  rewrite update_ids, update_dates. auto.
Qed.

(** X7.  An [addExpense] that passes validation appends one row to the
    table: the parsed amount, the trimmed category, the trimmed note or
    [null], the date text of the clock; its id is above the id of every
    row and above the sequence value.  The form is cleared, the remembered
    id is left alone, and the list is reloaded. *)
Theorem X7_addExpense_appends_a_fresh_row (now : Z) (s : State) :
  JS.gt_zero (JS.parseFloat (amount s)) = true ->
  JS.trim (category s) <> "" ->
  let r := Spec.added now s in
  let s' := addExpense now s in
  rows (db s') = rows (db s) ++ [r]
  /\ (forall x, In x (rows (db s)) -> id x < id r)
  /\ seq (db s) < id r /\ seq (db s') = id r
  /\ amount s' = "" /\ category s' = "" /\ note s' = ""
  /\ editingId s' = editingId s
  /\ expenses s' = list_all (db s').
Proof.
  intros Hpos Hcat r s'. unfold s'.
  rewrite (addExpense_accepts now s Hpos Hcat). simpl.
  split; [reflexivity|]. split.
  - intros x Hx. pose proof (max_id_ge _ _ Hx). lia.
  - repeat split; try reflexivity. lia.
Qed.

Lemma X7_addExpense_appends_a_fresh_row_witness :
  let now := Samples.monday_morning in
  let s := Samples.form "12.50" " Food " "lunch" in
  let r := Spec.added now s in
  let s' := addExpense now s in
  (JS.gt_zero (JS.parseFloat (amount s)) = true /\ JS.trim (category s) <> "")
  /\ (rows (db s') = rows (db s) ++ [r]
      /\ (forall x, In x (rows (db s)) -> id x < id r)
      /\ seq (db s) < id r /\ seq (db s') = id r
      /\ amount s' = "" /\ category s' = "" /\ note s' = ""
      /\ editingId s' = editingId s
      /\ expenses s' = list_all (db s')).
Proof.
  assert (H1 : JS.gt_zero (JS.parseFloat (amount (Samples.form "12.50" " Food " "lunch"))) = true)
    by (vm_compute; reflexivity).
  assert (H2 : JS.trim (category (Samples.form "12.50" " Food " "lunch")) <> "")
    by (vm_compute; discriminate).
  split; [split; [exact H1 | exact H2]|].
  apply (X7_addExpense_appends_a_fresh_row Samples.monday_morning
           (Samples.form "12.50" " Food " "lunch") H1 H2).
Defined.

(** X8.  [addExpense] never changes or removes a row that is there: the
    table it leaves starts with the table it found, and holds at most one
    row more. *)
Theorem X8_addExpense_keeps_the_rows (now : Z) (s : State) :
  rows (db s) `prefix_of` rows (db (addExpense now s))
  /\ (length (rows (db (addExpense now s))) <= S (length (rows (db s))))%nat.
Proof.
  unfold addExpense.
  destruct (JS.isNaN _ || JS.le_zero _); [split; [reflexivity | lia]|].
  destruct (negb _); [split; [reflexivity | lia]|].
  simpl. unfold insert. destruct (JS.isNaN _); simpl; [split; [reflexivity | lia]|].
  split; [apply prefix_app_r; reflexivity | rewrite length_app; simpl; lia].
Qed.

(** X9.  From a table whose ids are distinct, positive and not above its
    sequence value, every table the component reaches is such a table. *)
Theorem X9_ids_stay_distinct (d : Db) (es : list Event) :
  wf d -> wf (db (run (setup d) es)).
Proof. intros H. apply run_wf. exact H. Qed.

Lemma X9_ids_stay_distinct_witness :
  wf Store.empty /\ wf (db (run (setup Store.empty) Samples.session)).
Proof.
  split; [exact wf_empty | apply (X9_ids_stay_distinct Store.empty Samples.session wf_empty)].
Defined.

(** X10.  From a table whose rows are as the handlers write them, so it is
    in every table the component reaches: each row has a number above zero
    for amount, a category and a note that are trimmed and not empty (or no
    note), and a date. *)
Theorem X10_rows_stay_valid (d : Db) (es : list Event) :
  Forall Spec.valid_row (rows d) ->
  Forall Spec.valid_row (rows (db (run (setup d) es))).
Proof. intros H. apply (run_valid_rows es (setup d)). exact H. Qed.

Lemma X10_rows_stay_valid_witness :
  Forall Spec.valid_row (rows Store.empty)
  /\ Forall Spec.valid_row (rows (db (run (setup Store.empty) Samples.session))).
Proof.
  assert (H : Forall Spec.valid_row (rows Store.empty)) by constructor.
  split; [exact H | apply (X10_rows_stay_valid Store.empty Samples.session H)].
Defined.

(** X11.  An id at or below the sequence value that no row has (the id of
    a deleted row) is never the id of a row again, whatever the user does. *)
Theorem X11_deleted_ids_do_not_come_back (s : State) (es : list Event) (i : Z) :
  i <= seq (db s) ->
  ~ In i (map id (rows (db s))) ->
  ~ In i (map id (rows (db (run s es)))).
Proof.
  intros Hi Hn Hin.
  destruct (run_since s es s (since_refl s)) as [_ Hr].
  apply in_map_iff in Hin as [r [E Hin]]. destruct (Hr r Hin) as [H | H].
  - apply Hn. now rewrite <- E.
  - lia.
Qed.

Lemma X11_deleted_ids_do_not_come_back_witness :
  let s := setup Samples.emptied in
  (1 <= seq (db s) /\ ~ In 1 (map id (rows (db s))))
  /\ ~ In 1 (map id (rows (db (run s Samples.session)))).
Proof.
  assert (H1 : 1 <= seq (db (setup Samples.emptied))) by (simpl; lia).
  assert (H2 : ~ In 1 (map id (rows (db (setup Samples.emptied))))) by (simpl; tauto).
  split; [split; [exact H1 | exact H2]|].
  apply (X11_deleted_ids_do_not_come_back (setup Samples.emptied) Samples.session 1 H1 H2).
Defined.

(** X12.  Pressing the edit mark of a stored row and saving at once leaves
    the table as it was, and ends the edit with a cleared form: provided
    the row is as the handlers write rows and the text [String] gives for
    its amount parses back to the amount. *)
Theorem X12_edit_and_save_changes_nothing (s : State) (k : nat) (r : Expense) (a : JS.number) :
  wf (db s) ->
  rows (db s) !! k = Some r ->
  Spec.valid_row r ->
  Store.amount r = JS.VNum a ->
  JS.parseFloat (JSText.NumberToString a) = a ->
  let s' := saveEdit (Render.pressEdit r s) in
  rows (db s') = rows (db s)
  /\ editingId s' = None
  /\ amount s' = "" /\ category s' = "" /\ note s' = "".
Proof.
  intros [Hnd Hb] Hk Hv Ha Hrt s'. unfold s'. clear s'.
  assert (Hin : r ∈ rows (db s)) by (eapply list_elem_of_lookup_2; eassumption).
  assert (Hid : id r <> 0).
  { rewrite Forall_forall in Hb. specialize (Hb r Hin). lia. }
  unfold Spec.valid_row in Hv. rewrite Ha in Hv.
  destruct (Store.category r) as [c|] eqn:Ec; [|tauto].
  destruct (date r) as [d|] eqn:Ed; [|tauto].
  destruct Hv as [Hpos [Hc [Htc Hnote]]].
  set (s1 := Render.pressEdit r s).
  assert (E1 : amount s1 = JSText.NumberToString a).
  { unfold s1, Render.pressEdit. simpl. now rewrite Ha. }
  assert (E2 : category s1 = c).
  { unfold s1, Render.pressEdit. simpl. now rewrite Ec. }
  assert (E3 : or_null (JS.trim (note s1)) = Store.note r).
  { unfold s1, Render.pressEdit. simpl.
    destruct (Store.note r) as [n|]; simpl.
    - destruct Hnote as [Hn ->]. apply str_truthy_true in Hn.
      unfold or_null. now rewrite Hn.
    - reflexivity. }
  assert (Hpos1 : JS.gt_zero (JS.parseFloat (amount s1)) = true)
    by (rewrite E1, Hrt; exact Hpos).
  assert (Hcat1 : JS.trim (category s1) <> "") by (rewrite E2, Htc; exact Hc).
  assert (E4 : editingId s1 = Some (id r)) by reflexivity.
  assert (E5 : rows (db s1) = rows (db s)) by reflexivity.
  clearbody s1.
  rewrite (saveEdit_accepts s1 (id r) Hpos1 Hcat1 E4 Hid). simpl.
  split; [|repeat split; reflexivity].
  rewrite E1, Hrt, E2, Htc, E3, E5.
  set (f := fun x : Expense => if id x =? id r then _ else x).
  assert (Hf : forall x, id x <> id r -> f x = x).
  { intros x Hx. unfold f. apply Z.eqb_neq in Hx. now rewrite Hx. }
  assert (Hr : f r = r).
  { unfold f, Spec.edited. rewrite Z.eqb_refl, <- Ha, <- Ec.
    destruct r; reflexivity. }
  rewrite (map_update_insert f _ k r Hf Hnd Hk), Hr.
  apply list_insert_id. exact Hk.
Qed.

Lemma X12_edit_and_save_changes_nothing_witness :
  let s := setup Samples.one_row in
  let r := Samples.row 1 "10.00" "Food" "2024-01-29" in
  let a := JS.parseFloat "10.00" in
  let s' := saveEdit (Render.pressEdit r s) in
  (wf (db s) /\ rows (db s) !! 0%nat = Some r /\ Spec.valid_row r
   /\ Store.amount r = JS.VNum a /\ JS.parseFloat (JSText.NumberToString a) = a)
  /\ (rows (db s') = rows (db s)
      /\ editingId s' = None
      /\ amount s' = "" /\ category s' = "" /\ note s' = "").
Proof.
  assert (Hv : Spec.valid_row (Samples.row 1 "10.00" "Food" "2024-01-29")).
  { unfold Spec.valid_row. simpl. split; [vm_compute; reflexivity|].
    split; [discriminate|]. split; [vm_compute; reflexivity | exact I]. }
  assert (Hrt : JS.parseFloat (JSText.NumberToString (JS.parseFloat "10.00"))
                = JS.parseFloat "10.00") by (vm_compute; reflexivity).
  split.
  - split; [exact one_row_wf|]. split; [reflexivity|]. split; [exact Hv|].
    split; [reflexivity | exact Hrt].
  - apply (X12_edit_and_save_changes_nothing (setup Samples.one_row) 0
             (Samples.row 1 "10.00" "Food" "2024-01-29") (JS.parseFloat "10.00")
             one_row_wf eq_refl Hv eq_refl Hrt).
Defined.

End HandlerExtras.

(* ===================================================================== *)
(** * The date text and the filters: further properties *)
(* ===================================================================== *)

Module FilterExtras.

Import Store Screen Engine JSDate DateFacts StoreFacts ScreenFacts MoreFacts.

Local Ltac in_range := split; apply Z.leb_le; vm_compute; reflexivity.
Local Ltac clock_ok := unfold Spec.clock_in_range; apply Z.leb_le; vm_compute; reflexivity.
Local Ltac zone_ok := apply Z.ltb_lt; vm_compute; reflexivity.

Lemma sorted_sublist {A} (R : A -> A -> Prop) (l k : list A) :
  k `sublist_of` l -> StronglySorted R l -> StronglySorted R k.
Proof.
  induction 1 as [|x k l Hs IH|x k l Hs IH]; intros Hl.
  - constructor.
  - apply StronglySorted_inv in Hl as [Hl Hx]. constructor; [apply IH, Hl|].
    rewrite Forall_forall in *. intros y Hy. apply Hx.
    eapply elem_of_sublist; eassumption.
  - apply StronglySorted_inv in Hl as [Hl _]. apply IH, Hl.
Qed.

Lemma filtered_sublist tza now f (l : list Expense) :
  filteredExpenses tza now f l `sublist_of` l.
Proof.
  destruct f; [reflexivity | |]; unfold filteredExpenses; cbv zeta; apply filter_sublist.
Qed.

(** X13.  For a clock in the years 0 to 9999 the date text of a new record
    is the UTC calendar date written [YYYY-MM-DD], ten characters long, and
    [new Date] reads it back as the midnight (UTC) that starts that day. *)
Theorem X13_date_text_reads_back (now : Z) :
  0 <= YearFromTime now <= 9999 ->
  getTodayDateString now = Spec.date_string now
  /\ String.length (getTodayDateString now) = 10%nat
  /\ parse (getTodayDateString now) = Some (MakeDate (Day now) 0).
Proof.
  intros Hy. rewrite HandlerProps.getTodayDateString_utc by exact Hy.
  split; [reflexivity|]. split.
  - unfold Spec.date_string, Spec.ymd.
    rewrite !HandlerProps.string_length_app, !HandlerProps.pad_length. reflexivity.
  - apply parse_date_string, Hy.
Qed.

Lemma X13_date_text_reads_back_witness :
  let now := Samples.monday_morning in
  0 <= YearFromTime now <= 9999
  /\ (getTodayDateString now = Spec.date_string now
      /\ String.length (getTodayDateString now) = 10%nat
      /\ parse (getTodayDateString now) = Some (MakeDate (Day now) 0)).
Proof.
  assert (H : 0 <= YearFromTime Samples.monday_morning <= 9999) by in_range.
  split; [exact H | apply (X13_date_text_reads_back Samples.monday_morning H)].
Defined.

(** X14.  Whatever the user has done, and whichever filter is active, the
    filtered list is a selection of the loaded list in the same order; so
    it is ordered by date descending, then id descending, as the loaded
    list is. *)
Theorem X14_filtered_list_stays_sorted
    (tza now : Z) (f : Filter) (d : Db) (es : list Event) :
  let s := run (setup d) es in
  filteredExpenses tza now f (expenses s) `sublist_of` expenses s
  /\ StronglySorted precedes (filteredExpenses tza now f (expenses s)).
Proof.
  intros s. split; [apply filtered_sublist|].
  eapply sorted_sublist; [apply filtered_sublist|].
  assert (H : Spec.loaded s) by (apply run_loaded, loadExpenses_loaded).
  unfold Spec.loaded in H. rewrite H. apply list_all_sorted.
Qed.









(** X19.  The filters depend on the clock only through the local calendar
    day: two clock readings on the same local day give the same filtered
    list, under every filter. *)
Theorem X19_filters_ignore_the_time_of_day
    (tza now now' : Z) (f : Filter) (l : list Expense) :
  Z.abs tza < msPerDay ->
  Spec.clock_in_range now -> Spec.clock_in_range now' ->
  Day (LocalTime tza now) = Day (LocalTime tza now') ->
  filteredExpenses tza now f l = filteredExpenses tza now' f l.
Proof.
  intros Hz Hc Hc' Hd. destruct f.
  - reflexivity.
  - rewrite !FilterFacts.week_filter_local by assumption.
    unfold Spec.monday, Spec.current_day, WeekDay. rewrite Hd. reflexivity.
  - rewrite !FilterFacts.month_filter_local by assumption.
    rewrite (YearFromTime_day (LocalTime tza now)),
            (MonthFromTime_day (LocalTime tza now)), Hd,
            <- (YearFromTime_day (LocalTime tza now')),
            <- (MonthFromTime_day (LocalTime tza now')).
    reflexivity.
Qed.

Lemma X19_filters_ignore_the_time_of_day_witness :
  let tza := Samples.utc_minus_5 in
  let now := Samples.monday_morning in
  let now' := Samples.monday_morning + 3600000 in
  (Z.abs tza < msPerDay /\ Spec.clock_in_range now /\ Spec.clock_in_range now'
   /\ Day (LocalTime tza now) = Day (LocalTime tza now'))
  /\ filteredExpenses tza now Week Samples.around_the_week
     = filteredExpenses tza now' Week Samples.around_the_week.
Proof.
  assert (H1 : Z.abs Samples.utc_minus_5 < msPerDay) by zone_ok.
  assert (H2 : Spec.clock_in_range Samples.monday_morning) by clock_ok.
  assert (H3 : Spec.clock_in_range (Samples.monday_morning + 3600000)) by clock_ok.
  assert (H4 : Day (LocalTime Samples.utc_minus_5 Samples.monday_morning)
               = Day (LocalTime Samples.utc_minus_5 (Samples.monday_morning + 3600000)))
    by (vm_compute; reflexivity).
  split; [split; [exact H1|]; split; [exact H2|]; split; [exact H3 | exact H4]|].
  apply (X19_filters_ignore_the_time_of_day Samples.utc_minus_5 Samples.monday_morning
           (Samples.monday_morning + 3600000) Week Samples.around_the_week H1 H2 H3 H4).
Defined.

(** X20.  In UTC and east of it, at a time when local time and UTC are on
    the same calendar day, a record that [addExpense] accepts is in the
    list right away under every filter: [All], [Week] and [Month]. *)
Theorem X20_new_record_is_shown
    (tza now : Z) (s : State) (f : Filter) :
  0 <= tza < msPerDay ->
  Spec.clock_in_range now ->
  0 <= YearFromTime now <= 9999 ->
  Day (LocalTime tza now) = Day now ->
  JS.gt_zero (JS.parseFloat (amount s)) = true ->
  JS.trim (category s) <> "" ->
  In (Spec.added now s) (filteredExpenses tza now f (expenses (addExpense now s))).
Proof.
  intros Hz Hc Hy Hd Ha Hcat. destruct f.
  - apply (Scenarios.added_is_loaded now s Ha Hcat).
  - apply Scenarios.added_in_week; assumption.
  - apply Scenarios.added_in_month; assumption.
Qed.

Lemma X20_new_record_is_shown_witness :
  let tza := Samples.utc_plus_530 in
  let now := Samples.monday_morning in
  let s := Samples.form "12.50" "Food" "" in
  (0 <= tza < msPerDay /\ Spec.clock_in_range now
   /\ 0 <= YearFromTime now <= 9999
   /\ Day (LocalTime tza now) = Day now
   /\ JS.gt_zero (JS.parseFloat (amount s)) = true
   /\ JS.trim (category s) <> "")
  /\ In (Spec.added now s) (filteredExpenses tza now Week (expenses (addExpense now s))).
Proof.
  assert (H1 : 0 <= Samples.utc_plus_530 < msPerDay)
    by (split; [apply Z.leb_le | apply Z.ltb_lt]; vm_compute; reflexivity).
  assert (H2 : Spec.clock_in_range Samples.monday_morning) by clock_ok.
  assert (H3 : 0 <= YearFromTime Samples.monday_morning <= 9999) by in_range.
  assert (H4 : Day (LocalTime Samples.utc_plus_530 Samples.monday_morning)
               = Day Samples.monday_morning) by (vm_compute; reflexivity).
  assert (H5 : JS.gt_zero (JS.parseFloat (amount (Samples.form "12.50" "Food" ""))) = true)
    by (vm_compute; reflexivity).
  assert (H6 : JS.trim (category (Samples.form "12.50" "Food" "")) <> "")
    by (vm_compute; discriminate).
  split.
  - split; [exact H1|]. split; [exact H2|]. split; [exact H3|]. split; [exact H4|].
    split; [exact H5 | exact H6].
  - apply (X20_new_record_is_shown Samples.utc_plus_530 Samples.monday_morning
             (Samples.form "12.50" "Food" "") Week H1 H2 H3 H4 H5 H6).
Defined.

End FilterExtras.

(* ===================================================================== *)
(** * The category totals and the screen: further properties *)
(* ===================================================================== *)

Module TotalsExtras.

Import Store Screen Engine.
Import Spec (key_step).
Import EngineProps.

Lemma inherited_proto c : inherited c = ProtoAccessor <-> c = "__proto__".
Proof.
  unfold inherited. destruct (decide (c = "__proto__")); [tauto|].
  destruct (decide (c ∈ object_prototype_methods)); split; congruence.
Qed.

Lemma proto_not_method : "__proto__" ∉ object_prototype_methods.
Proof.
  unfold object_prototype_methods. rewrite !elem_of_cons, elem_of_nil.
  intros H. repeat (destruct H as [H | H]; [discriminate|]). exact H.
Qed.

Lemma inherited_method c : inherited c = Method <-> c ∈ object_prototype_methods.
Proof.
  unfold inherited. destruct (decide (c = "__proto__")) as [-> | N].
  - split; [discriminate|]. intros H. destruct (proto_not_method H).
  - destruct (decide (c ∈ object_prototype_methods)); split; congruence.
Qed.

Lemma key_fold_text c l : fold_left (key_step c) l (Some TText) = Some TText.
Proof.
  induction l as [|e l IH]; simpl; [reflexivity|].
  unfold key_step at 2. destruct (decide (category_of e = c)); exact IH.
Qed.

Lemma key_fold_method c l :
  inherited c = Method -> In c (map category_of l) ->
  fold_left (key_step c) l None = Some TText.
Proof.
  intros Hc. induction l as [|e l IH]; simpl; [tauto|].
  intros Hin. unfold key_step at 2.
  destruct (decide (category_of e = c)) as [E | N].
  - rewrite Hc. apply key_fold_text.
  - apply IH. tauto.
Qed.

Lemma key_fold_proto c l :
  inherited c = ProtoAccessor -> fold_left (key_step c) l None = None.
Proof.
  intros Hc. induction l as [|e l IH]; simpl; [reflexivity|].
  unfold key_step at 2. destruct (decide (category_of e = c)); [rewrite Hc|]; exact IH.
Qed.

Lemma key_fold_of_category c l : forall cur,
  fold_left (key_step c) l cur = fold_left (key_step c) (Spec.of_category c l) cur.
Proof.
  induction l as [|e l IH]; intros cur; simpl; [reflexivity|].
  unfold Spec.of_category. simpl.
  destruct (decide (category_of e = c)) as [E | N].
  - rewrite (bool_decide_eq_true_2 _ E). simpl. apply IH.
  - rewrite (bool_decide_eq_false_2 _ N).
    replace (key_step c cur e) with cur
      by (unfold key_step; destruct (decide (category_of e = c)); tauto).
    apply IH.
Qed.

Lemma entry_present l c :
  is_Some (categoryTotals l !! c) <-> In c (map category_of l) /\ c <> "__proto__".
Proof.
  destruct (inherited c) eqn:Hc.
  - rewrite (categoryTotals_present l c Hc).
    assert (c <> "__proto__") by (intros E; apply inherited_proto in E; congruence).
    tauto.
  - assert (c <> "__proto__") by (intros E; apply inherited_proto in E; congruence).
    rewrite categoryTotals_lookup. split.
    + intros Hs. split; [|assumption].
      destruct (in_dec string_dec c (map category_of l)) as [Hin | Hout]; [exact Hin|].
      rewrite key_fold_absent in Hs by exact Hout. destruct Hs; discriminate.
    + intros [Hin _]. rewrite key_fold_method by assumption. eauto.
  - rewrite categoryTotals_lookup, key_fold_proto by exact Hc.
    apply inherited_proto in Hc. split; [intros [x Hx]; discriminate | tauto].
Qed.

Lemma entry_text l c :
  categoryTotals l !! c = Some TText
  <-> c ∈ object_prototype_methods /\ In c (map category_of l).
Proof.
  rewrite categoryTotals_lookup. split.
  - intros H. destruct (inherited c) eqn:Hc.
    + rewrite key_fold_none in H by exact Hc.
      destruct (map amount_of _); discriminate.
    + split; [apply inherited_method, Hc|].
      destruct (in_dec string_dec c (map category_of l)) as [Hin | Hout]; [exact Hin|].
      rewrite key_fold_absent in H by exact Hout. discriminate.
    + rewrite key_fold_proto in H by exact Hc. discriminate.
  - intros [Hm Hin]. apply key_fold_method; [apply inherited_method, Hm | exact Hin].
Qed.

Lemma totals_empty l :
  categoryTotals l = ∅ <-> Forall (fun e => category_of e = "__proto__") l.
Proof.
  split.
  - intros He. apply Forall_forall. intros e Hin.
    destruct (decide (category_of e = "__proto__")) as [E | N]; [exact E|].
    assert (Hs : is_Some (categoryTotals l !! category_of e)).
    { apply entry_present. split; [|exact N].
      apply in_map, list_elem_of_In, Hin. }
    rewrite He, lookup_empty in Hs. destruct Hs; discriminate.
  - intros Hf. apply map_eq. intros c. rewrite lookup_empty.
    apply eq_None_not_Some. intros Hs. apply entry_present in Hs as [Hin Hn].
    apply in_map_iff in Hin as [e [E Hin]].
    rewrite Forall_forall in Hf. apply list_elem_of_In, Hf in Hin. congruence.
Qed.

(** X21.  [categoryTotals] has an entry for a category exactly when a
    record of the list has it and it is not [__proto__]; so it is empty
    exactly when every record of the list has the category [__proto__]. *)
Theorem X21_categories_with_an_entry (l : list Expense) :
  (forall c, is_Some (categoryTotals l !! c)
             <-> In c (map category_of l) /\ c <> "__proto__")
  /\ (categoryTotals l = ∅ <-> Forall (fun e => category_of e = "__proto__") l).
Proof. split; [intros c; apply entry_present | apply totals_empty]. Qed.

(** X22.  At a category that is not the name of a property of
    [Object.prototype], and whose amounts do not add up to [NaN], the entry
    of [categoryTotals] is the sum of the amounts of the category's records,
    added up in list order; there is none when no record has the
    category. *)
Theorem X22_regular_category_total (l : list Expense) (c : string) :
  inherited c = Absent ->
  (forall x, Spec.category_total l c = Some x -> PrimFloat.is_nan x = false) ->
  categoryTotals l !! c = TNum <$> Spec.category_total l c.
Proof. apply categoryTotals_regular. Qed.

Lemma X22_regular_category_total_witness :
  let l := Samples.two_lunches in
  (inherited "Food" = Absent
   /\ (forall x, Spec.category_total l "Food" = Some x -> PrimFloat.is_nan x = false))
  /\ categoryTotals l !! "Food" = TNum <$> Spec.category_total l "Food".
Proof.
  assert (H1 : inherited "Food" = Absent) by reflexivity.
  assert (H2 : forall x, Spec.category_total Samples.two_lunches "Food" = Some x ->
                         PrimFloat.is_nan x = false).
  { intros x Hx. vm_compute in Hx. injection Hx as <-. reflexivity. }
  split; [split; [exact H1 | exact H2]|].
  apply (X22_regular_category_total Samples.two_lunches "Food" H1 H2).
Defined.

(** X23.  The entry of a category is a text instead of a number exactly
    when the category is the name of a method of [Object.prototype]
    ([constructor], [toString], [valueOf], ...) and a record of the list
    has it. *)
Theorem X23_method_names_get_a_text (l : list Expense) (c : string) :
  categoryTotals l !! c = Some TText
  <-> c ∈ object_prototype_methods /\ In c (map category_of l).
Proof. apply entry_text. Qed.

(** X24.  The entry of a category depends on the records of that category
    only, taken in list order: the other records of the list can be left
    out. *)
Theorem X24_category_total_is_local (l : list Expense) (c : string) :
  categoryTotals l !! c = categoryTotals (Spec.of_category c l) !! c.
Proof. rewrite !categoryTotals_lookup. apply key_fold_of_category. Qed.

End TotalsExtras.

Module RenderProps.

Import Store Screen Engine Render.
Import TotalsExtras.

Lemma mapM_None {A B} (f : A -> option B) (l : list A) :
  mapM f l = None <-> Exists (fun x => f x = None) l.
Proof.
  induction l as [|x l IH]; simpl.
  - split; [discriminate | intros H; inversion H].
  - rewrite Exists_cons, <- IH. destruct (f x) as [y|]; simpl.
    + destruct (mapM f l); simpl; split; try discriminate; try tauto.
      intros [H | H]; discriminate.
    + tauto.
Qed.

Lemma category_block_None (m : gmap string Total) :
  category_block m = None <-> exists c, m !! c = Some TText.
Proof.
  unfold category_block. destruct (size m =? 0)%nat eqn:Es.
  - apply Nat.eqb_eq, map_size_empty_iff in Es. subst m.
    split; [discriminate|]. intros [c Hc]. rewrite lookup_empty in Hc. discriminate.
  - rewrite fmap_None, mapM_None, Exists_exists. split.
    + intros [[c t] [Hin Hn]]. apply elem_of_map_to_list in Hin.
      destruct t; [discriminate|]. exists c. exact Hin.
    + intros [c Hc]. exists (c, TText). split; [|reflexivity].
      apply elem_of_map_to_list, Hc.
Qed.

Lemma render_None tza now s :
  render tza now s = None
  <-> exists e, In e (filteredExpenses tza now (filter s) (expenses s))
                /\ category_of e ∈ object_prototype_methods.
Proof.
  unfold render. cbv zeta. rewrite fmap_None, category_block_None. split.
  - intros [c Hc]. apply entry_text in Hc as [Hm Hin].
    apply in_map_iff in Hin as [e [<- Hin]]. eauto.
  - intros [e [Hin Hm]]. exists (category_of e). apply entry_text.
    split; [exact Hm | apply in_map, Hin].
Qed.

(** X25.  Rendering throws exactly when a record of the filtered list has
    a category that is the name of a method of [Object.prototype]: its
    entry of [categoryTotals] is a text, which has no [toFixed]. *)
Theorem X25_render_throws_on_method_names (tza now : Z) (s : State) :
  render tza now s = None
  <-> exists e, In e (filteredExpenses tza now (filter s) (expenses s))
                /\ category_of e ∈ object_prototype_methods.
Proof. apply render_None. Qed.

(** X26.  In what a render shows, the notice that there are no expenses for
    the filter stands under "By Category" exactly when every record of the
    filtered list has the category [__proto__], and "No expenses yet."
    stands for the list exactly when the filtered list is empty; then the
    total reads [$0.00] and both notices are shown. *)
Theorem X26_notices_of_the_screen (tza now : Z) (s : State) (v : View) :
  render tza now s = Some v ->
  let filtered := filteredExpenses tza now (filter s) (expenses s) in
  (by_category v = NoExpensesForFilter
   <-> Forall (fun e => category_of e = "__proto__") filtered)
  /\ (flat_list v = NoExpensesYet <-> filtered = [])
  /\ (filtered = [] ->
      total v = "$0.00" /\ by_category v = NoExpensesForFilter).
Proof.
  intros Hr filtered. unfold render in Hr. cbv zeta in Hr. fold filtered in Hr.
  apply fmap_Some in Hr as [b [Hb ->]]. simpl.
  assert (Hblock : b = NoExpensesForFilter
                   <-> Forall (fun e => category_of e = "__proto__") filtered).
  { rewrite <- totals_empty. unfold category_block in Hb.
    destruct (size (categoryTotals filtered) =? 0)%nat eqn:Es.
    - injection Hb as <-. apply Nat.eqb_eq, map_size_empty_iff in Es. tauto.
    - apply fmap_Some in Hb as [x [_ ->]]. split; [discriminate|].
      intros E. rewrite E, map_size_empty in Es. discriminate. }
  split; [exact Hblock|]. split.
  - unfold list_view. destruct filtered; split; congruence.
  - intros E. split; [rewrite E; reflexivity|].
    apply Hblock. rewrite E. constructor.
Qed.

Lemma X26_notices_of_the_screen_witness :
  let s := setup Store.empty in
  let v := mkView All "Total Spending (All Time Total):" "$0.00" NoExpensesForFilter
                  "Add Expense" SlotNull NoExpensesYet in
  let filtered := filteredExpenses 0 Samples.monday_morning (filter s) (expenses s) in
  render 0 Samples.monday_morning s = Some v
  /\ ((by_category v = NoExpensesForFilter
       <-> Forall (fun e => category_of e = "__proto__") filtered)
      /\ (flat_list v = NoExpensesYet <-> filtered = [])
      /\ (filtered = [] ->
          total v = "$0.00" /\ by_category v = NoExpensesForFilter)).
Proof.
  assert (H : render 0 Samples.monday_morning (setup Store.empty)
              = Some (mkView All "Total Spending (All Time Total):" "$0.00"
                             NoExpensesForFilter "Add Expense" SlotNull NoExpensesYet))
    by (vm_compute; reflexivity).
  split; [exact H|].
  apply (X26_notices_of_the_screen 0 Samples.monday_morning (setup Store.empty) _ H).
Defined.

(** X27.  Once [addExpense] has accepted a record whose trimmed category is
    the name of a method of [Object.prototype], the screen no longer
    renders under the [All] filter, whatever else the table holds. *)
Theorem X27_a_method_name_breaks_the_screen (tza now : Z) (s : State) :
  JS.gt_zero (JS.parseFloat (amount s)) = true ->
  JS.trim (category s) ∈ object_prototype_methods ->
  filter s = All ->
  render tza now (addExpense now s) = None.
Proof.
  intros Ha Hm Hf.
  assert (Hc : JS.trim (category s) <> "").
  { intros E. rewrite E in Hm. revert Hm.
    unfold object_prototype_methods. rewrite !elem_of_cons, elem_of_nil.
    intros H. repeat (destruct H as [H | H]; [discriminate|]). exact H. }
  apply render_None. exists (Spec.added now s). split.
  - rewrite (MoreFacts.addExpense_accepts now s Ha Hc). simpl. rewrite Hf. simpl.
    apply list_elem_of_In. rewrite StoreFacts.list_all_perm. simpl.
    apply elem_of_app. right. apply list_elem_of_here.
  - unfold category_of, Spec.added. simpl.
    apply ScreenFacts.str_truthy_true in Hc. rewrite Hc. exact Hm.
Qed.

Lemma X27_a_method_name_breaks_the_screen_witness :
  let s := Samples.form "5" " toString " "" in
  (JS.gt_zero (JS.parseFloat (amount s)) = true
   /\ JS.trim (category s) ∈ object_prototype_methods
   /\ filter s = All)
  /\ render 0 Samples.monday_morning (addExpense Samples.monday_morning s) = None.
Proof.
  assert (H1 : JS.gt_zero (JS.parseFloat (amount (Samples.form "5" " toString " ""))) = true)
    by (vm_compute; reflexivity).
  assert (H2 : JS.trim (category (Samples.form "5" " toString " ""))
               ∈ object_prototype_methods).
  { replace (JS.trim (category (Samples.form "5" " toString " ""))) with "toString"
      by (vm_compute; reflexivity).
    unfold object_prototype_methods. rewrite !elem_of_cons. tauto. }
  split; [split; [exact H1|]; split; [exact H2 | reflexivity]|].
  apply (X27_a_method_name_breaks_the_screen 0 Samples.monday_morning
           (Samples.form "5" " toString " "") H1 H2 eq_refl).
Defined.

End RenderProps.
